(* ===== verification/_CoqProject ===== *)
-Q . S2P
Prelude.v
KeySort.v
Sql.v
PyValue.v
Schema.v
Store.v
Connection.v
Query.v
Summary.v
QueryBuilder.v
Tools.v
Concurrency.v
