(* ===== verification/Prelude.v ===== *)
(** * A verification of the expense-tracker MCP server (src/main.py)

    ** The program

    [src/main.py] is a FastMCP server over one SQLite file.  Its parts:
    - [init_db] (lines 16-30): run once at import time, it executes
      [CREATE TABLE IF NOT EXISTS expenses (...)] and commits;
    - the tool [add_expense] (lines 35-51): in [async with
      aiosqlite.connect(DB_PATH)], one parameterised [INSERT INTO
      expenses(...) VALUES (?, ?, ?, ?, ?)], a commit, and the reply
      [{"status": "success", "id": cur.lastrowid}];
    - the tool [list_expenses] (lines 54-71): [SELECT ... WHERE date
      BETWEEN ? AND ? ORDER BY date DESC], each row turned into a dict by
      [dict(zip(cols, row))];
    - the tool [summarize] (lines 74-97): the query text built from a
      prefix, [" AND category = ?"] appended when the Python value
      [category] is truthy, and [" GROUP BY category ORDER BY total_amount
      DESC"]; rows turned into dicts the same way;
    - the resource [categories] (lines 102-116): [json.dumps] of a
      constant dict.
    Every tool opens its own connection, so the only state shared between
    calls is the database file; SQLite serialises writers with its write
    lock.

    ** The files (library root: this directory), in dependency order

    - [Prelude] (this file): the [expense_scope] notations, the error
      monad [res] ([inl] = the exception a call raises) with its [let?]
      binder, the [expenses] hint database, the tactics [invc], [res_inv]
      and [decide_by_eval], and generic lemmas on comparisons, sorting,
      [filter], sums under permutation and the integer ranges [zseq].
    - [KeySort]: GROUP BY as SQLite runs it, for any key type (a Section
      over the key and its comparison): a stable sort on the key
      ([sort_key]) and the split into maximal runs of equal keys
      ([group_runs]); proved a permutation of the reference grouping
      [ref_groups] (one group per distinct key, rows in input order).
    - [Sql] (Module [Sql]): the SQLite semantics the statements use:
      TEXT as byte strings under the BINARY collation ([String.compare]),
      REAL as IEEE binary64 ([SpecFloat] with [prec = 53], [emax = 1024]),
      binding a Python float (NaN becomes NULL), [BETWEEN], the ORDER BY
      comparators (NULL first), [SUM] (left fold from [0.0], NaN returned
      as NULL), [COUNT], the rowid bound [2^63 - 1], the exceptions.
    - [PyValue] (Module [Py]): Python values, the conversion of result
      cells, [zip] and [dict] (a repeated key keeps its first position),
      and the typing judgment [has_type] of the replies.
    - [Schema] (Module [Schema]): the columns of lines 19-26, the row
      record [expense], the table (rows in rowid order and its
      [sqlite_sequence] counter), the contents of the database file, and
      [init_db].
    - [Store] (Module [Store]): the INSERT: rowid allocation of an
      AUTOINCREMENT table ([new_rowid], as [OP_NewRowid] does it), the NOT
      NULL checks in column order, the append, and the table invariant
      [table_wf] (ids strictly increasing within [1..seq], [seq] a valid
      rowid, no NaN amount).
    - [Connection] (Module [Connection]): one [sqlite3] connection: the
      file and the connection's open transaction; [execute_insert] (the
      implicit [BEGIN] of the module's legacy transaction control, then
      the INSERT in the transaction, a failed statement undone by the
      statement journal), [execute_select], [commit], [close] (rolls back
      what is still open) and [with_connection], the [async with] block,
      threaded through the state and error monad [conn_m].
    - [Query] (Module [Query]): [list_expenses]'s SELECT: scan, WHERE,
      ORDER BY date DESC (merge sort), projection to dicts, and the
      declarative specification [list_spec] it refines.
    - [Summary] (Module [Summary]): [summarize]'s statement: the
      truthiness test, WHERE, GROUP BY via [KeySort], SUM/COUNT, ORDER BY
      total_amount DESC, and the reference semantics [summary_ref].
    - [QueryBuilder] (Module [QueryBuilder]): the literal SQL texts
      (whitespace included) and parameter tuples of the three statements,
      [summarize]'s string concatenation and [params.append] (lines
      81-92), and [run_list_sql] and [run_summarize_sql], which bind the
      prepared texts to the [Query] and [Summary] models (a wrong number
      of parameters raises ProgrammingError).
    - [Tools] (Module [Tools]): the three tools as [async with] blocks of
      [Connection] operations, with faults injected at connect, execute
      and commit, and [add_expenses], a client making calls one after the
      other.
    - [Concurrency] (Module [Concurrency]): calls running at once, each
      on its own connection.  A [world] holds the committed database, the
      owner of SQLite's write lock and the [phase] of every call
      ([Pending], [InTxn] after its INSERT, [Reading] between [execute]
      and [fetchall] of a read, [Replied]); [step] is one atomic action
      of one call: the INSERT taking the write lock, the commit publishing
      the row and releasing it (only when no reader holds a shared lock:
      SQLite's rollback-journal locking), a failed commit rolling back, a
      busy failure, the start of a read on the committed database and its
      end ([read_reply]), a failed read, a connection failure.
      [world_inv], [origin_inv] and [snap_inv] are its invariants, proved
      for every step.

    ** What the theorems show
    - refinement and equivalence: [Query.select_rows_refines] (the
      executable SELECT meets its declarative specification),
      [Summary.summarize_refines] (the sorter-and-runs GROUP BY is the
      reference grouping, sorted by total) and
      [Summary.summarize_category_restrict] (with a category, [summarize]
      returns exactly that category's row of the unfiltered summary, with
      the same binary64 total);
    - functional behaviour of each statement on every branch:
      [Store.insert_row_ok], [Store.insert_row_nan] (NOT NULL),
      [Store.insert_row_full] (SQLITE_FULL), [Query.select_rows_in]
      (inclusive range), [Summary.summarize_in], the category filter,
      NULL totals, and [Summary.summarize_counts_total] (the counts of
      [summarize] add up to the rows of [list_expenses]);
    - error paths: [Tools.add_expense_error_atomic] (no partial success:
      a failed call leaves the file as it was, by the rollback of the
      connection's open transaction on close);
    - invariants: [Store.insert_row_wf], [Tools.restart_keeps_data]
      ([init_db] idempotent, no data loss across a restart after any
      calls);
    - end to end: [Tools.add_then_list] (insert then read),
      [Tools.add_then_summarize] (insert then summarize: the category's
      row counts one more and its total is the earlier binary64 sum plus
      the new amount, added last; the other rows are unchanged),
      [Tools.add_expenses_distinct] ([N] serialised calls give the ids
      [seq+1 .. seq+N], all distinct, and [N] new rows);
    - types: [Tools.tool_replies_typed] (every reply has the shape of
      spec section 6, by the typing judgment [Py.has_type]);
    - the SQL texts: [QueryBuilder.placeholders_match] (every [?] gets one
      parameter) and [QueryBuilder.build_summarize_text_independent] (no
      caller value enters the text);
    - concurrency, by rule induction on [step]:
      [Concurrency.concurrent_replies_committed] (returned ids committed
      and pairwise distinct in every interleaving),
      [Concurrency.committed_rows_origin] (the committed table is the
      initial rows plus one row per call that replied success: no row of
      a failed call, no lost row), [Concurrency.write_lock_exclusive],
      [Concurrency.uncommitted_invisible] (no dirty reads),
      [Concurrency.read_snapshot_stable] (a read sees one committed state:
      nothing commits while it holds its shared lock), the refinements
      [Concurrency.add_expense_steps] (the handler of [Tools] is a run of
      the fine steps) and [Concurrency.serial_schedule_serves] (the
      handlers run in sequence, [serve], are a run of the concurrent
      system, for any mix of requests), the liveness
      [Concurrency.serial_schedule_succeeds] and the termination bound
      [Concurrency.run_length_bound] ([n] calls, at most [2 n] steps, by a
      measure that every step decreases).
    Every function of the model is structurally recursive and no fuel is
    used; the step relation terminates by the measure [Concurrency.work].

    ** Modelling choices and their limits
    - SUM over REAL is the left fold of binary64 additions over the rows
      of a group in rowid order (SQLite's [sumStep] before release 3.43;
      later releases use a compensated sum, so exact totals may differ
      there); a NaN result is NULL.
    - GROUP BY feeds each group to the aggregates in scan (rowid) order:
      the model assumes that SQLite's sorter ([vdbesort.c]) keeps records
      with equal keys in the order they were inserted, which
      [KeySort.sort_key_stable] proves of the model's sorter.  Only the
      binary64 totals depend on it; counts, categories and membership do
      not.
    - Python [str] values are modelled by their UTF-8 byte strings, which
      is what SQLite compares.
    - Ties of ORDER BY are left open by the declarative specifications;
      the executable models break them as a stable sort does.
    - Failures of the environment (I/O, a busy write lock) are inputs
      ([Tools.faults], the [fault] of [init_db]), not modelled causes.
    - The statements' SQL is given its meaning by the [Query] and
      [Summary] models; [run_list_sql] and [run_summarize_sql] recognise
      exactly the texts the program prepares.
    - The database file holds the program's [expenses] table or none; a
      table of another shape made by another program is not represented.
    - Concurrency: SQLite in its default rollback-journal mode (the code
      does not set WAL); a read holds its shared lock from [execute] to
      the end of [fetchall], and its snapshot is taken at [execute]; the
      busy timeout is one step that fails the call; the PENDING lock (by
      which a waiting writer keeps new readers out) is not modelled,
      which affects only how long a writer may wait; [init_db] has run
      before any call.  The calls of one client in sequence are
      [Tools.add_expenses].

    ** Plan of the later parts
    - [init_db] racing with the first calls (the spec excludes it);
    - WAL mode, in which a commit does not wait for readers.

    ** Not modelled
    The FastMCP transport and argument validation (an external library),
    the HTTP entry point [mcp.run]; the [categories] resource, which
    returns Python's [json.dumps] of a literal (library code the program
    only calls); and the value of [DB_PATH]: it depends on the
    environment ([tempfile.gettempdir()] reads [TMPDIR]) and is only
    passed to [connect]; the model has the one database file all
    connections open ([Schema.database], [Concurrency.world]). *)

From Stdlib Require Export String ZArith.
From stdpp Require Export base list sorting strings sets relations.

Declare Scope expense_scope.
Delimit Scope expense_scope with expense.
Open Scope expense_scope.

(** ** The error monad of [sqlite3] exceptions.
    A Python call that may raise is a value of [res E A]: [inl e] is the
    exception, [inr a] the returned value. *)
Definition res (E A : Type) : Type := (E + A)%type.

Definition res_bind {E A B} (c : res E A) (k : A -> res E B) : res E B :=
  match c with
  | inl e => inl e
  | inr a => k a
  end.

Notation "'let?' pat := c 'in' k" :=
  (res_bind c (fun x => match x with pat => k end))
  (at level 200, pat pattern, c at level 100, k at level 200)
  : expense_scope.

(** Discharge a decidable proposition on closed data by evaluation. *)
Ltac decide_by_eval := apply (bool_decide_unpack _); vm_compute; reflexivity.

Lemma res_bind_inr {E A B} (c : res E A) (k : A -> res E B) (b : B) :
  res_bind c k = inr b <-> exists a, c = inr a /\ k a = inr b.
Proof. destruct c; simpl; split; [done|naive_solver|eauto|naive_solver]. Qed.

Lemma res_bind_inl {E A B} (c : res E A) (k : A -> res E B) (e : E) :
  res_bind c k = inl e <-> c = inl e \/ exists a, c = inr a /\ k a = inl e.
Proof. destruct c; simpl; split; naive_solver. Qed.

Create HintDb expenses.

Ltac invc H := inversion H; subst; clear H.

(** Split a hypothesis [res_bind c k = inr b] into its two steps. *)
Ltac res_inv :=
  repeat match goal with
  | H : res_bind _ _ = inr _ |- _ =>
      apply res_bind_inr in H; destruct H as (? & ? & ?)
  | H : inr _ = inr _ |- _ => injection H as H; subst
  | H : inl _ = inr _ |- _ => discriminate H
  end.

(** ** Comparisons.  A three-way comparison that is antisymmetric gives a
    total "greater or equal" relation: the order in which ORDER BY ... DESC
    leaves its rows. *)
Section Compare.
Context {A : Type} (cmp : A -> A -> comparison).
Hypothesis cmp_antisym : forall x y, cmp x y = CompOpp (cmp y x).

Definition cmp_ge (x y : A) : Prop := cmp x y <> Lt.

#[global] Instance cmp_ge_dec : RelDecision cmp_ge.
Proof. intros x y. unfold cmp_ge. apply _. Defined.

Lemma cmp_ge_total : Total cmp_ge.
Proof.
  intros x y. unfold cmp_ge. rewrite (cmp_antisym y x).
  destruct (cmp x y); simpl; [left|right|left]; done.
Qed.
End Compare.

Lemma CompOpp_neq_Gt c : CompOpp c <> Gt <-> c <> Lt.
Proof. destruct c; simpl; split; congruence. Qed.

Lemma CompOpp_neq_Lt c : CompOpp c <> Lt <-> c <> Gt.
Proof. destruct c; simpl; split; congruence. Qed.

(** ** Lists *)
Lemma filter_app_single {A} (P : A -> Prop) `{!forall x, Decision (P x)}
    (l : list A) (x : A) :
  filter P (l ++ [x]) = filter P l ++ (if decide (P x) then [x] else []).
Proof. rewrite filter_app, filter_cons, filter_nil. by case_decide. Qed.

#[export] Hint Resolve cmp_ge_total : expenses.

Lemma Sorted_snoc_Forall {A} (R : relation A) (l : list A) (x : A) :
  Sorted R l -> Forall (fun y => R y x) l -> Sorted R (l ++ [x]).
Proof.
  induction 1 as [|y l Hs IH Hd]; intros HF; simpl; [by repeat constructor|].
  invc HF. constructor; [by apply IH|].
  destruct l as [|z l]; simpl; constructor; [done|]. by invc Hd.
Qed.

Lemma fold_left_max_le {A} (f : A -> Z) (l : list A) (acc s : Z) :
  (acc <= s)%Z -> Forall (fun a => f a <= s)%Z l ->
  (fold_left (fun m a => Z.max m (f a)) l acc <= s)%Z.
Proof.
  revert acc. induction l as [|a l IH]; intros acc Hacc HF; simpl; [done|].
  invc HF. apply IH; [lia|done].
Qed.

Lemma filter_nil_iff {A} (P : A -> Prop) `{!forall x, Decision (P x)} (l : list A) :
  filter P l = [] <-> Forall (fun x => ~ P x) l.
Proof.
  induction l as [|x l IH]; simpl; [split; [constructor|done]|].
  rewrite filter_cons, Forall_cons, <- IH. case_decide; naive_solver.
Qed.

Lemma filter_Forall_id {A} (P : A -> Prop) `{!forall x, Decision (P x)} (l : list A) :
  Forall P l -> filter P l = l.
Proof.
  induction 1 as [|x l Hx _ IH]; [done|]. rewrite filter_cons.
  case_decide; [by rewrite IH|done].
Qed.

(** Integer sums are invariant under permutation, so [foldr Z.add 0]
    can be rewritten with [≡ₚ]. *)
#[export] Instance foldr_Zadd_perm_proper : Proper ((≡ₚ) ==> eq) (foldr Z.add 0%Z).
Proof. intros l1 l2 Hp. induction Hp; simpl; lia. Qed.

(** Two permutations of a list of at most one element are equal. *)
Lemma Permutation_le1_eq {A} (l1 l2 : list A) :
  l1 ≡ₚ l2 -> length l1 <= 1 -> l1 = l2.
Proof.
  intros Hp Hl. destruct l1 as [|x [|y l1]]; simpl in Hl; [| |lia].
  - by apply Permutation_nil_l in Hp.
  - by apply Permutation_singleton_l in Hp.
Qed.

Lemma NoDup_Forall_eq_length {A} (l : list A) (c : A) :
  NoDup l -> Forall (fun x => x = c) l -> length l <= 1.
Proof.
  intros Hnd Hall. destruct l as [|x [|y l]]; simpl; [lia|lia|].
  invc Hall. invc H2. invc Hnd. set_solver.
Qed.

Lemma filter_map_comm {A B} (f : A -> B) (P : B -> Prop) `{!forall x, Decision (P x)}
    (l : list A) :
  filter P (map f l) = map f (filter (fun x => P (f x)) l).
Proof.
  induction l as [|x l IH]; simpl; [done|].
  rewrite !filter_cons. case_decide; simpl; by rewrite IH.
Qed.

Lemma filter_ext_in {A} (P Q : A -> Prop) `{!forall x, Decision (P x)}
    `{!forall x, Decision (Q x)} (l : list A) :
  (forall x, x ∈ l -> P x <-> Q x) -> filter P l = filter Q l.
Proof.
  induction l as [|x l IH]; intros HPQ; [done|]. rewrite !filter_cons.
  rewrite IH by (intros y Hy; apply HPQ; set_solver).
  destruct (decide (P x)), (decide (Q x)); try done; exfalso;
    [apply n|apply n]; apply HPQ; set_solver.
Qed.

(** [start, start + 1, ..., start + n - 1] *)
Fixpoint zseq (start : Z) (n : nat) : list Z :=
  match n with
  | O => []
  | S n' => start :: zseq (start + 1) n'
  end.

Lemma zseq_lower start n x : x ∈ zseq start n -> (start <= x)%Z.
Proof.
  revert start. induction n as [|n IH]; intros start Hx; simpl in Hx; [set_solver|].
  apply elem_of_cons in Hx as [->|Hx]; [lia|]. apply IH in Hx. lia.
Qed.

Lemma NoDup_zseq start n : NoDup (zseq start n).
Proof.
  revert start. induction n as [|n IH]; intros start; simpl; constructor; [|done].
  intros Hin. apply zseq_lower in Hin. lia.
Qed.

Lemma length_zseq start n : length (zseq start n) = n.
Proof. revert start. induction n; intros; simpl; auto. Qed.

Lemma list_insert_lookup_cases {A} (l : list A) (i j : nat) (x c0 c : A) :
  l !! i = Some c0 -> <[i := x]> l !! j = Some c ->
  (j = i /\ c = x) \/ (j <> i /\ l !! j = Some c).
Proof.
  intros Hi Hj. destruct (decide (i = j)) as [<-|Hne].
  - rewrite list_lookup_insert_eq in Hj by (eapply lookup_lt_Some; eauto).
    left. by simplify_eq.
  - rewrite list_lookup_insert_ne in Hj by done. by right.
Qed.

(** Replacing the [i]-th element of a list of naturals changes its sum
    by the difference. *)
Lemma sum_list_insert (l : list nat) (i x y : nat) :
  l !! i = Some y -> sum_list (<[i := x]> l) + y = sum_list l + x.
Proof.
  revert i. induction l as [|z l IH]; intros [|i] Hi; simpl in *; [done|done| |].
  - injection Hi as ->. lia.
  - specialize (IH i Hi). lia.
Qed.
