(* ===== verification/KeySort.v ===== *)
(** Generic machinery for GROUP BY as SQLite evaluates it: a stable sort
    of the rows on the group key, then the split of the sorted rows into
    maximal runs of equal keys, one run per group.  Proved here once, for
    any key type with a three-way comparison that is antisymmetric,
    transitive and decides equality: the sort is a permutation, sorted and
    stable, and the runs are exactly the reference grouping (one group
    per distinct key, holding the rows of that key in input order). *)
From S2P Require Import Prelude.

Section KeySort.
Context {A K : Type} `{!EqDecision K} (key : A -> K) (cmp : K -> K -> comparison).
Hypothesis cmp_antisym : forall x y, cmp x y = CompOpp (cmp y x).
Hypothesis cmp_eq : forall x y, cmp x y = Eq <-> x = y.
Hypothesis cmp_lt_trans : forall x y z, cmp x y = Lt -> cmp y z = Lt -> cmp x z = Lt.

(** ** Definitions *)
Fixpoint insert_key (x : A) (l : list A) : list A :=
  match l with
  | [] => [x]
  | y :: l' =>
      match cmp (key x) (key y) with
      | Gt => y :: insert_key x l'
      | _ => x :: l
      end
  end.

Fixpoint sort_key (l : list A) : list A :=
  match l with
  | [] => []
  | x :: l' => insert_key x (sort_key l')
  end.

Definition key_le (x y : A) : Prop := cmp (key x) (key y) <> Gt.

(** Maximal runs of rows whose keys compare equal. *)
Fixpoint group_runs (l : list A) : list (K * list A) :=
  match l with
  | [] => []
  | x :: l' =>
      match group_runs l' with
      | (k, g) :: gs =>
          match cmp (key x) k with
          | Eq => (k, x :: g) :: gs
          | _ => (key x, [x]) :: (k, g) :: gs
          end
      | [] => [(key x, [x])]
      end
  end.

Definition has_key (k : K) (x : A) : Prop := key x = k.

#[global] Instance has_key_dec k : forall x, Decision (has_key k x).
Proof. intros x. unfold has_key. apply _. Defined.

(** The reference grouping: one group per distinct key. *)
Definition ref_groups (l : list A) : list (K * list A) :=
  (fun k => (k, filter (has_key k) l)) <$> remove_dups (key <$> l).

(** ** The sort *)
Lemma cmp_refl k : cmp k k = Eq.
Proof. by apply cmp_eq. Qed.

Lemma insert_key_perm x l : insert_key x l ≡ₚ x :: l.
Proof.
  induction l as [|y l IH]; simpl; [done|].
  destruct (cmp (key x) (key y)); [done|done|].
  rewrite IH. constructor.
Qed.

Lemma sort_key_perm l : sort_key l ≡ₚ l.
Proof. induction l as [|x l IH]; simpl; [done|]. by rewrite insert_key_perm, IH. Qed.

Lemma key_le_of_gt x y : cmp (key x) (key y) = Gt -> key_le y x.
Proof. intros H. unfold key_le. rewrite cmp_antisym, H. discriminate. Qed.

Lemma insert_key_sorted x l : Sorted key_le l -> Sorted key_le (insert_key x l).
Proof.
  induction l as [|y l IH]; intros Hs; simpl; [by repeat constructor|].
  destruct (cmp (key x) (key y)) eqn:E.
  1,2: constructor; [done|constructor; unfold key_le; by rewrite E].
  invc Hs. constructor; [by apply IH|].
  destruct l as [|z l]; simpl; [constructor; by apply key_le_of_gt|].
  destruct (cmp (key x) (key z)); constructor;
    try (by apply key_le_of_gt); by invc H2.
Qed.

Lemma sort_key_sorted l : Sorted key_le (sort_key l).
Proof. induction l; simpl; [constructor|by apply insert_key_sorted]. Qed.

Lemma filter_insert_key k x l :
  filter (has_key k) (insert_key x l) = filter (has_key k) (x :: l).
Proof.
  induction l as [|y l IH]; simpl; [done|].
  destruct (cmp (key x) (key y)) eqn:E; [done|done|].
  rewrite !filter_cons, IH, filter_cons. unfold has_key.
  destruct (decide (key y = k)), (decide (key x = k)); try done.
  subst. rewrite e0, cmp_refl in E. discriminate.
Qed.

(** Stability: the rows of one key keep their input order. *)
Lemma sort_key_stable k l : filter (has_key k) (sort_key l) = filter (has_key k) l.
Proof.
  induction l as [|x l IH]; simpl; [done|].
  by rewrite filter_insert_key, !filter_cons, IH.
Qed.

(** ** The runs *)
Lemma group_runs_head x l k g gs :
  group_runs (x :: l) = (k, g) :: gs -> k = key x.
Proof.
  simpl. destruct (group_runs l) as [|[k' g'] gs'].
  - by intros [= <- _ _].
  - destruct (cmp (key x) k') eqn:E; intros [= <- _ _]; [|done|done].
    symmetry. by apply cmp_eq.
Qed.

Lemma group_runs_concat l : concat (group_runs l).*2 = l.
Proof.
  induction l as [|x l IH]; simpl; [done|].
  destruct (group_runs l) as [|[k g] gs]; simpl in *; [by rewrite <- IH|].
  destruct (cmp (key x) k); simpl; by rewrite IH.
Qed.

Definition run_wf (kg : K * list A) : Prop :=
  kg.2 <> [] /\ Forall (has_key kg.1) kg.2.

Lemma group_runs_wf l : Forall run_wf (group_runs l).
Proof.
  induction l as [|x l IH]; simpl; [constructor|].
  destruct (group_runs l) as [|[k g] gs]; simpl in *.
  - repeat constructor; done.
  - invc IH. destruct H1 as [Hne Hg].
    destruct (cmp (key x) k) eqn:E.
    + constructor; [|done]. split; [done|].
      constructor; [|exact Hg]. unfold has_key. simpl. by apply cmp_eq.
    + constructor; [split; [done|by repeat constructor]|by constructor].
    + constructor; [split; [done|by repeat constructor]|by constructor].
Qed.

Lemma group_runs_sorted l :
  Sorted key_le l -> Sorted (fun k1 k2 => cmp k1 k2 = Lt) (group_runs l).*1.
Proof.
  induction l as [|x l IH]; intros Hs; simpl; [constructor|].
  invc Hs. specialize (IH H1).
  destruct (group_runs l) as [|[k g] gs] eqn:Eg; simpl in *; [by repeat constructor|].
  destruct l as [|y l]; [discriminate|].
  apply group_runs_head in Eg as ->. invc H2.
  destruct (cmp (key x) (key y)) eqn:E; simpl; [done| |done].
  constructor; [done|]. by constructor.
Qed.

Lemma Sorted_lt_NoDup (ks : list K) :
  Sorted (fun k1 k2 => cmp k1 k2 = Lt) ks -> NoDup ks.
Proof.
  intros Hs. apply Sorted_StronglySorted in Hs; [|intros ???; apply cmp_lt_trans].
  induction Hs as [|k ks _ IH Hall]; constructor; [|done].
  intros Hin. rewrite Forall_forall in Hall.
  specialize (Hall k Hin). by rewrite cmp_refl in Hall.
Qed.

Lemma filter_concat_absent k (gs : list (K * list A)) :
  Forall run_wf gs -> k ∉ gs.*1 -> filter (has_key k) (concat gs.*2) = [].
Proof.
  induction gs as [|[k' g'] gs IH]; intros Hwf Hk; [done|].
  change (concat ((k', g') :: gs).*2) with (g' ++ concat gs.*2).
  invc Hwf. destruct H1 as [_ Hg]. rewrite filter_app, IH; [|done|set_solver].
  rewrite app_nil_r. apply filter_nil_iff. eapply Forall_impl; [exact Hg|].
  unfold has_key. simpl. intros y -> ->. set_solver.
Qed.

Lemma filter_concat_group k g (gs : list (K * list A)) :
  Forall run_wf gs -> NoDup gs.*1 -> (k, g) ∈ gs ->
  filter (has_key k) (concat gs.*2) = g.
Proof.
  induction gs as [|[k' g'] gs IH]; intros Hwf Hnd Hin; [set_solver|].
  change (concat ((k', g') :: gs).*2) with (g' ++ concat gs.*2).
  invc Hwf. invc Hnd. rewrite filter_app.
  apply elem_of_cons in Hin as [[= -> ->]|Hin].
  - rewrite filter_concat_absent by done. rewrite app_nil_r.
    apply filter_Forall_id. apply H1.
  - assert (k ∈ gs.*1) by (apply list_elem_of_fmap; by exists (k, g)).
    rewrite IH by done. destruct H1 as [_ Hg'].
    rewrite (proj2 (filter_nil_iff _ _)); [done|].
    eapply Forall_impl; [exact Hg'|]. unfold has_key. simpl.
    intros y -> ->. done.
Qed.

Lemma group_runs_keys l k :
  k ∈ (group_runs l).*1 <-> exists x, x ∈ l /\ key x = k.
Proof.
  pose proof (group_runs_wf l) as Hwf. rewrite Forall_forall in Hwf.
  split.
  - intros ([k' g] & -> & Hin)%list_elem_of_fmap. destruct (Hwf _ Hin) as [Hne Hg].
    destruct g as [|x g]; [done|]. exists x. split.
    + rewrite <- (group_runs_concat l). apply list_elem_of_In, in_concat. exists (x :: g).
      split; [apply list_elem_of_In, list_elem_of_fmap; by exists (k', x :: g)|by left].
    + by invc Hg.
  - intros (x & Hx & <-). rewrite <- (group_runs_concat l) in Hx.
    apply list_elem_of_In, in_concat in Hx as (g & Hg & Hxg).
    apply list_elem_of_In, list_elem_of_fmap in Hg as ([k' g'] & -> & Hin).
    destruct (Hwf _ Hin) as [_ Hall]. rewrite Forall_forall in Hall.
    apply list_elem_of_In in Hxg. rewrite (Hall x Hxg).
    apply list_elem_of_fmap. by exists (k', g').
Qed.

Lemma group_runs_sorted_nodup l : Sorted key_le l -> NoDup (group_runs l).*1.
Proof. intros Hs. apply Sorted_lt_NoDup, group_runs_sorted, Hs. Qed.

(** A group of the runs of the sorted rows holds the rows of its key in
    input order. *)
Lemma group_runs_sort_group l k g :
  (k, g) ∈ group_runs (sort_key l) -> g = filter (has_key k) l.
Proof.
  intros Hin. rewrite <- sort_key_stable, <- (group_runs_concat (sort_key l)).
  symmetry. apply filter_concat_group; [apply group_runs_wf| |done].
  apply group_runs_sorted_nodup, sort_key_sorted.
Qed.

(** The runs of the sorted rows are the reference grouping, up to the
    order of the groups. *)
Theorem group_runs_ref_perm l : group_runs (sort_key l) ≡ₚ ref_groups l.
Proof.
  pose proof (group_runs_sorted_nodup _ (sort_key_sorted l)) as Hnd.
  apply NoDup_Permutation.
  - by apply NoDup_fmap_1 in Hnd.
  - apply NoDup_fmap_2; [intros k1 k2 [=]; done|apply NoDup_remove_dups].
  - intros [k g]. unfold ref_groups. rewrite list_elem_of_fmap. split.
    + intros Hin. exists k. split; [by rewrite (group_runs_sort_group l k g Hin)|].
      apply elem_of_remove_dups, list_elem_of_fmap.
      assert (k ∈ (group_runs (sort_key l)).*1) as Hk
        by (apply list_elem_of_fmap; by exists (k, g)).
      apply group_runs_keys in Hk as (x & Hx & <-).
      exists x. split; [done|]. by rewrite <- (sort_key_perm l).
    + intros (k' & [= -> ->] & Hk).
      apply elem_of_remove_dups, list_elem_of_fmap in Hk as (x & -> & Hx).
      assert (key x ∈ (group_runs (sort_key l)).*1) as Hk.
      { apply group_runs_keys. exists x. by rewrite sort_key_perm. }
      apply list_elem_of_fmap in Hk as ([k'' g] & Heq & Hin). simpl in Heq. subst k''.
      by rewrite <- (group_runs_sort_group l (key x) g Hin).
Qed.

End KeySort.
