(* ===== verification/Sql.v ===== *)
(** The slice of SQLite semantics that the statements of src/main.py use:
    storage classes of values, the BINARY collation of TEXT, binary64 REAL
    arithmetic and comparison, binding Python values to parameters,
    [BETWEEN], the ORDER BY comparators, the aggregates SUM and COUNT, the
    rowid bound and the error codes surfaced as [sqlite3] exceptions. *)
From S2P Require Import Prelude.
From Stdlib Require Import SpecFloat.

Module Sql.

(** ** TEXT: UTF-8 byte strings, ordered by the BINARY collation
    ([memcmp] on the common prefix, then the shorter string first). *)
Definition text := string.

Definition collate_binary (a b : text) : comparison := String.compare a b.

(** ** REAL: IEEE binary64. *)
Definition prec : Z := 53.
Definition emax : Z := 1024.
Definition real := spec_float.

Definition real_add (x y : real) : real := SFadd prec emax x y.

Definition real_is_nan (x : real) : bool :=
  match x with S754_nan => true | _ => false end.

(** The binary64 value nearest to [m * 2^e]: how literals are written. *)
Definition real_of (m e : Z) : real := binary_normalize prec emax m e false.

Definition real_zero : real := S754_zero false.
Definition real_nan : real := S754_nan.
Definition real_inf (negative : bool) : real := S754_infinity negative.

(** [sqlite3MemCompare] on two REAL values: [r1 < r2] gives -1, [r1 > r2]
    gives 1, anything else (equal, or unordered) gives 0. *)
Definition real_compare (x y : real) : comparison :=
  match SFcompare x y with Some c => c | None => Eq end.

(** ** Values of a result row, by storage class. *)
Inductive value : Type :=
  | VNull
  | VInteger (z : Z)
  | VReal (r : real)
  | VText (s : text).

Definition is_null (v : value) : bool :=
  match v with VNull => true | _ => false end.

(** [sqlite3_bind_double]: a NaN is bound as NULL
    ([sqlite3VdbeMemSetDouble] leaves the cell NULL). *)
Definition bind_double (x : real) : value :=
  if real_is_nan x then VNull else VReal x.

(** Binding an [Optional[str]]: [None] is bound as NULL. *)
Definition bind_opt_text (o : option text) : value :=
  match o with None => VNull | Some s => VText s end.

(** [sqlite3_result_double]: a NaN result is returned as NULL. *)
Definition result_double (x : real) : option real :=
  if real_is_nan x then None else Some x.

(** ** Predicates.  [x BETWEEN lo AND hi] is [x >= lo AND x <= hi] under
    the collation of [x] (column [date]: BINARY). *)
Definition text_between (x lo hi : text) : bool :=
  match collate_binary x lo, collate_binary x hi with
  | Lt, _ => false
  | _, Gt => false
  | _, _ => true
  end.

(** ** ORDER BY comparators on the two sort keys of the program: a TEXT
    column and a REAL-or-NULL aggregate.  NULL sorts first. *)
Definition nullable_real_compare (x y : option real) : comparison :=
  match x, y with
  | None, None => Eq
  | None, Some _ => Lt
  | Some _, None => Gt
  | Some a, Some b => real_compare a b
  end.

(** ** Aggregates.  [sum] follows [sumStep]/[sumFinalize] for REAL inputs:
    the running double starts at [0.0], each value is added in the order
    the rows reach the aggregator, and the final double is returned through
    [sqlite3_result_double]; an empty group gives NULL. *)
Definition sum_real (l : list real) : option real :=
  match l with
  | [] => None
  | _ => result_double (fold_left real_add l real_zero)
  end.

Definition count_star {A} (l : list A) : Z := Z.of_nat (length l).

(** ** Limits and errors. *)
Definition max_rowid : Z := 2 ^ 63 - 1.

Inductive storage_error : Type :=
  | NoSuchTable (table : string)          (** [OperationalError: no such table] *)
  | NotNullFailed (column : string)       (** [IntegrityError: NOT NULL constraint failed] *)
  | DatabaseFull                          (** [OperationalError: database or disk is full] *)
  | DatabaseLocked                        (** [OperationalError: database is locked] *)
  | IOError                               (** [OperationalError: disk I/O error] *)
  | ProgrammingError.                     (** [ProgrammingError: Incorrect number of bindings supplied] *)

#[export] Instance real_eq_dec : EqDecision real.
Proof. unfold real. solve_decision. Defined.

#[export] Instance value_eq_dec : EqDecision value.
Proof. solve_decision. Defined.

#[export] Instance storage_error_eq_dec : EqDecision storage_error.
Proof. solve_decision. Defined.

(** ** Lemmas *)
Lemma collate_binary_antisym a b :
  collate_binary a b = CompOpp (collate_binary b a).
Proof. apply String.compare_antisym. Qed.

Lemma collate_binary_refl a : collate_binary a a = Eq.
Proof.
  pose proof (collate_binary_antisym a a) as H.
  destruct (collate_binary a a); simpl in H; congruence.
Qed.

Lemma collate_binary_eq a b : collate_binary a b = Eq <-> a = b.
Proof.
  split; [apply String.compare_eq_iff|intros ->; apply collate_binary_refl].
Qed.

Lemma collate_binary_lt_trans a b c :
  collate_binary a b = Lt -> collate_binary b c = Lt -> collate_binary a c = Lt.
Proof.
  unfold collate_binary. revert b c.
  induction a as [|x a IH]; intros [|y b] [|z c]; simpl; try congruence.
  unfold Ascii.compare.
  destruct (N.compare_spec (Ascii.N_of_ascii x) (Ascii.N_of_ascii y));
  destruct (N.compare_spec (Ascii.N_of_ascii y) (Ascii.N_of_ascii z));
  destruct (N.compare_spec (Ascii.N_of_ascii x) (Ascii.N_of_ascii z));
  intros Hab Hbc; try congruence; try lia; eauto.
Qed.

Lemma text_between_spec x lo hi :
  text_between x lo hi = true <->
  collate_binary x lo <> Lt /\ collate_binary x hi <> Gt.
Proof.
  unfold text_between.
  destruct (collate_binary x lo), (collate_binary x hi); naive_solver.
Qed.

Lemma SFcompare_antisym x y :
  SFcompare y x = option_map CompOpp (SFcompare x y).
Proof.
  destruct x as [s1| s1| |s1 m1 e1], y as [s2| s2| |s2 m2 e2];
    try destruct s1; try destruct s2; simpl; try reflexivity;
    replace (Z.compare e2 e1) with (CompOpp (Z.compare e1 e2))
      by (symmetry; apply Z.compare_antisym);
    replace (Pos.compare_cont Eq m2 m1) with (CompOpp (Pos.compare_cont Eq m1 m2))
      by (rewrite (Pos.compare_cont_antisym m1 m2 Eq); reflexivity);
    destruct (Z.compare e1 e2), (Pos.compare_cont Eq m1 m2); reflexivity.
Qed.

Lemma real_compare_antisym x y :
  real_compare x y = CompOpp (real_compare y x).
Proof.
  unfold real_compare. rewrite (SFcompare_antisym x y).
  by destruct (SFcompare x y) as [[]|].
Qed.

Lemma nullable_real_compare_antisym x y :
  nullable_real_compare x y = CompOpp (nullable_real_compare y x).
Proof. destruct x, y; simpl; try done. apply real_compare_antisym. Qed.

Lemma bind_double_not_nan x :
  real_is_nan x = false -> bind_double x = VReal x.
Proof. unfold bind_double. by intros ->. Qed.

Lemma bind_double_nan x :
  real_is_nan x = true -> bind_double x = VNull.
Proof. unfold bind_double. by intros ->. Qed.

(** SUM over a non-empty list: the amount added last is added to the
    binary64 sum of the ones before, in that order. *)
Lemma sum_real_snoc l a :
  sum_real (l ++ [a]) = result_double (real_add (fold_left real_add l real_zero) a).
Proof.
  unfold sum_real. destruct (l ++ [a]) eqn:E; [by destruct l|].
  rewrite <- E, fold_left_app. reflexivity.
Qed.

End Sql.

#[export] Hint Resolve Sql.collate_binary_refl : expenses.
#[export] Hint Rewrite Sql.collate_binary_refl : expenses.
