(* ===== verification/PyValue.v ===== *)
(** The Python side of the tools: the values a tool returns to FastMCP,
    the [sqlite3] conversion of result cells to Python objects, and the
    projection [dict(zip(cols, row))] of src/main.py lines 70-71 and
    96-97, with the semantics of [zip] (it stops at the shorter input)
    and of [dict] built from pairs (a repeated key keeps its first
    position and takes the last value). *)
From S2P Require Import Prelude Sql.
Import Sql.

Module Py.

Inductive pyval : Type :=
  | PNone
  | PInt (z : Z)
  | PFloat (r : real)
  | PStr (s : string)
  | PList (l : list pyval)
  | PDict (kvs : list (string * pyval)).

(** [sqlite3] converts NULL, INTEGER, REAL and TEXT cells to [None],
    [int], [float] and [str]. *)
Definition py_of_value (v : value) : pyval :=
  match v with
  | VNull => PNone
  | VInteger z => PInt z
  | VReal r => PFloat r
  | VText s => PStr s
  end.

(** [d[k] = v] on a dict kept as its items in insertion order. *)
Fixpoint dict_set (k : string) (v : pyval) (d : list (string * pyval))
    : list (string * pyval) :=
  match d with
  | [] => [(k, v)]
  | (k', v') :: d' =>
      if String.eqb k k' then (k', v) :: d' else (k', v') :: dict_set k v d'
  end.

(** [dict(pairs)]. *)
Definition dict_of_pairs (ps : list (string * pyval)) : list (string * pyval) :=
  fold_left (fun d kv => dict_set kv.1 kv.2 d) ps [].

(** [dict(zip(cols, row))]: [zip] is [combine], which truncates. *)
Definition row_to_dict (cols : list string) (row : list value) : pyval :=
  PDict (dict_of_pairs (combine cols (map py_of_value row))).

(** [d.get(k)]. *)
Fixpoint dict_get (d : list (string * pyval)) (k : string) : option pyval :=
  match d with
  | [] => None
  | (k', v) :: d' => if String.eqb k k' then Some v else dict_get d' k
  end.

Definition py_get (p : pyval) (k : string) : option pyval :=
  match p with PDict d => dict_get d k | _ => None end.

(** ** Python types of the values the tools return, as the annotations
    and the spec's interface describe them ([int], [float], [str],
    [Optional[T]], [List[T]], a dict with the given keys in order). *)
Inductive pytype : Type :=
  | TyInt
  | TyFloat
  | TyStr
  | TyOptional (t : pytype)
  | TyList (t : pytype)
  | TyDict (fields : list (string * pytype)).

Inductive has_type : pyval -> pytype -> Prop :=
  | ht_int z : has_type (PInt z) TyInt
  | ht_float r : has_type (PFloat r) TyFloat
  | ht_str s : has_type (PStr s) TyStr
  | ht_none t : has_type PNone (TyOptional t)
  | ht_some v t : has_type v t -> has_type v (TyOptional t)
  | ht_list vs t : Forall (fun v => has_type v t) vs -> has_type (PList vs) (TyList t)
  | ht_dict kvs fields :
      Forall2 (fun kv f => kv.1 = f.1 /\ has_type kv.2 f.2) kvs fields ->
      has_type (PDict kvs) (TyDict fields).

(** ** Lemmas *)
Lemma dict_set_fresh k v d :
  k ∉ d.*1 -> dict_set k v d = d ++ [(k, v)].
Proof.
  induction d as [|[k' v'] d IH]; intros Hk; simpl; [done|].
  destruct (String.eqb_spec k k') as [->|]; [set_solver|].
  rewrite IH; [done|set_solver].
Qed.

Lemma dict_of_pairs_nodup_aux (ps : list (string * pyval)) acc :
  NoDup (acc.*1 ++ ps.*1) ->
  fold_left (fun d kv => dict_set kv.1 kv.2 d) ps acc = acc ++ ps.
Proof.
  revert acc. induction ps as [|[k v] ps IH]; intros acc Hnd; simpl.
  - by rewrite app_nil_r.
  - rewrite dict_set_fresh.
    + rewrite IH, <- app_assoc; [done|]. rewrite fmap_app, <- app_assoc. done.
    + intros Hin. simpl in Hnd. apply NoDup_app in Hnd as (_ & Hdis & _).
      apply (Hdis k); [done|]. set_solver.
Qed.

(** With distinct keys, [dict(pairs)] keeps every pair, in order. *)
Lemma dict_of_pairs_nodup ps : NoDup ps.*1 -> dict_of_pairs ps = ps.
Proof. intros H. apply (dict_of_pairs_nodup_aux ps []). done. Qed.

Lemma combine_fst {A B} (l1 : list A) (l2 : list B) :
  length l1 = length l2 -> (combine l1 l2).*1 = l1.
Proof.
  revert l2. induction l1 as [|x l1 IH]; intros [|y l2] Hl; simpl in *;
    try done. f_equal. apply IH. lia.
Qed.

(** [dict(zip(cols, row))] with distinct column names and one cell per
    column maps each column to its converted cell. *)
Lemma row_to_dict_nodup cols row :
  NoDup cols -> length cols = length row ->
  row_to_dict cols row = PDict (combine cols (map py_of_value row)).
Proof.
  intros Hnd Hlen. unfold row_to_dict. f_equal.
  apply dict_of_pairs_nodup. rewrite combine_fst; [done|].
  by rewrite length_map.
Qed.

(** A converted [TEXT] cell of a nullable column is an [Optional[str]]. *)
Lemma has_type_opt_text o : has_type (py_of_value (bind_opt_text o)) (TyOptional TyStr).
Proof. destruct o; simpl; repeat constructor. Qed.

(** A dict is typed field by field. *)
Lemma has_type_dict_cons k v kvs t fields :
  has_type v t -> has_type (PDict kvs) (TyDict fields) ->
  has_type (PDict ((k, v) :: kvs)) (TyDict ((k, t) :: fields)).
Proof. intros Hv Hd. inversion Hd; subst. by repeat constructor. Qed.

Lemma has_type_list_map {A} (f : A -> pyval) (l : list A) t :
  (forall x, x ∈ l -> has_type (f x) t) -> has_type (PList (map f l)) (TyList t).
Proof.
  intros Hf. constructor. apply Forall_forall. intros v (x & <- & Hx)%list_elem_of_In%in_map_iff.
  apply Hf. by apply list_elem_of_In.
Qed.

#[export] Hint Constructors has_type Forall2 : expenses.
#[export] Hint Resolve has_type_opt_text has_type_dict_cons : expenses.

End Py.
