(* ===== verification/Schema.v ===== *)
(** The [expenses] table of src/main.py (lines 19-26), its rows, the
    state SQLite keeps for it (rows in rowid order, the AUTOINCREMENT
    counter of [sqlite_sequence]), the database file as a whole, and
    [init_db] (lines 16-28). *)
From S2P Require Import Prelude Sql.
Import Sql.

Module Schema.

(** ** The column definitions of [CREATE TABLE ... expenses]. *)
Inductive affinity : Type := TInteger | TText | TReal.

Record column : Type := mk_column {
  col_name : string;
  col_type : affinity;
  col_not_null : bool;
  col_autoinc_pk : bool;
}.

Definition expenses_columns : list column := [
  mk_column "id" TInteger false true;
  mk_column "date" TText true false;
  mk_column "amount" TReal true false;
  mk_column "category" TText true false;
  mk_column "subcategory" TText false false;
  mk_column "note" TText false false ].

(** ** A stored row.  Every row the program writes has this shape: [date]
    and [category] are Python [str] (TEXT), [amount] a Python float
    (REAL), [subcategory] and [note] an [Optional[str]]. *)
Record expense : Type := mk_expense {
  e_id : Z;
  e_date : text;
  e_amount : real;
  e_category : text;
  e_subcategory : option text;
  e_note : option text;
}.

#[export] Instance expense_eq_dec : EqDecision expense.
Proof. solve_decision. Defined.

(** The values of a row in column order, as SQLite stores them. *)
Definition expense_values (r : expense) : list value :=
  [VInteger (e_id r); VText (e_date r); bind_double (e_amount r);
   VText (e_category r); bind_opt_text (e_subcategory r);
   bind_opt_text (e_note r)].

(** ** The table: rows in rowid order and the [sqlite_sequence] entry of
    the table (0 while it has none). *)
Record table : Type := mk_table {
  t_rows : list expense;
  t_seq : Z;
}.

Definition empty_table : table := mk_table [] 0.

(** ** The contents of the database file at [DB_PATH]: the [expenses]
    table, or none before [init_db] has created it.  A file whose
    [expenses] table has another shape (made by another program) is not
    represented: [CREATE TABLE IF NOT EXISTS] would leave such a table as
    it is. *)
Record database : Type := mk_database {
  db_expenses : option table;
}.

Definition fresh_database : database := mk_database None.

(** ** [init_db]: [CREATE TABLE IF NOT EXISTS expenses (...)] then
    [conn.commit()], inside [with sqlite3.connect(DB_PATH) as conn].
    The DDL statement runs outside any transaction (the [sqlite3] module
    opens one implicitly only before DML), so it takes effect at once.
    [fault] is the I/O error the environment raises, if any; the
    statement then has no effect and the exception ends the process. *)
Definition create_table_if_not_exists (d : database) : database :=
  match db_expenses d with
  | Some _ => d
  | None => mk_database (Some empty_table)
  end.

Definition init_db (fault : option storage_error) (d : database)
    : res storage_error database :=
  match fault with
  | Some e => inl e
  | None => inr (create_table_if_not_exists d)
  end.

(** The ids of the rows, in rowid order. *)
Definition row_ids (rows : list expense) : list Z := map e_id rows.

End Schema.
