(* ===== verification/Store.v ===== *)
(** The write path of src/main.py: the statement
    [INSERT INTO expenses(date, amount, category, subcategory, note)
     VALUES (?, ?, ?, ?, ?)] of [add_expense] (lines 45-48), as SQLite
    runs it on a table with an [INTEGER PRIMARY KEY AUTOINCREMENT]: the
    new rowid ([OP_NewRowid] with the [sqlite_sequence] counter), the NOT
    NULL checks of the schema, and the append.  Then the table invariant
    and the theorems on the insert. *)
From S2P Require Import Prelude Sql Schema.
Import Sql Schema.

Module Store.
Local Open Scope Z_scope.
Local Open Scope expense_scope.

(** ** Rowid allocation.  [OP_NewRowid] reads the largest rowid [v] of
    the table (0 when empty); if [v] is already [max_rowid] it falls back
    to random rowids, which an AUTOINCREMENT table refuses with
    SQLITE_FULL; otherwise it takes [v + 1], raised to [seq + 1] where
    [seq] is the table's [sqlite_sequence] entry, which must not be
    [max_rowid] itself. *)
Definition max_row_id (rows : list expense) : Z :=
  fold_left (fun m r => Z.max m (e_id r)) rows 0.

Definition new_rowid (t : table) : res storage_error Z :=
  let v := max_row_id (t_rows t) in
  if bool_decide (max_rowid <= v) then inl DatabaseFull
  else if bool_decide (t_seq t = max_rowid) then inl DatabaseFull
  else inr (Z.max (v + 1) (t_seq t + 1)).

(** ** NOT NULL constraints, checked column by column in schema order;
    the first violation aborts the statement. *)
Fixpoint check_not_null (cols : list column) (vals : list value)
    : option string :=
  match cols, vals with
  | c :: cols', v :: vals' =>
      if col_not_null c && is_null v
      then Some ("expenses." ++ col_name c)%string
      else check_not_null cols' vals'
  | _, _ => None
  end.

(** ** The INSERT on the table: rowid, row, constraints, append, and the
    new [sqlite_sequence] value.  Returns [cursor.lastrowid]. *)
Definition insert_row (date : text) (amount : real) (category : text)
    (subcategory note : option text) (t : table)
    : res storage_error (Z * table) :=
  let? id := new_rowid t in
  let r := mk_expense id date amount category subcategory note in
  match check_not_null expenses_columns (expense_values r) with
  | Some c => inl (NotNullFailed c)
  | None => inr (id, mk_table (t_rows t ++ [r]) id)
  end.

(** The statement on the database: it fails if [init_db] has not run. *)
Definition insert (date : text) (amount : real) (category : text)
    (subcategory note : option text) (d : database)
    : res storage_error (Z * database) :=
  match db_expenses d with
  | None => inl (NoSuchTable "expenses")
  | Some t =>
      let? (id, t') := insert_row date amount category subcategory note t in
      inr (id, mk_database (Some t'))
  end.

(** ** The table invariant.  Rowids increase strictly along the table,
    lie in [1 .. seq], [seq] is a valid rowid or 0, and no stored amount
    is NaN (a NaN would have been stored as NULL). *)
Definition table_wf (t : table) : Prop :=
  Sorted Z.lt (row_ids (t_rows t)) /\
  Forall (fun r => 1 <= e_id r <= t_seq t)%Z (t_rows t) /\
  (0 <= t_seq t <= max_rowid)%Z /\
  Forall (fun r => real_is_nan (e_amount r) = false) (t_rows t).

#[export] Instance table_wf_dec t : Decision (table_wf t).
Proof. unfold table_wf. apply _. Defined.

Definition database_wf (d : database) : Prop :=
  match db_expenses d with None => True | Some t => table_wf t end.

(** ** Lemmas on the parts of the INSERT *)
Lemma max_row_id_le rows s :
  0 <= s -> Forall (fun r => e_id r <= s) rows -> max_row_id rows <= s.
Proof. apply fold_left_max_le. Qed.

Lemma new_rowid_wf t :
  table_wf t -> t_seq t < max_rowid -> new_rowid t = inr (t_seq t + 1).
Proof.
  intros (_ & Hids & Hseq & _) Hlt.
  assert (max_row_id (t_rows t) <= t_seq t).
  { apply max_row_id_le; [lia|]. eapply Forall_impl; [exact Hids|]. simpl; lia. }
  unfold new_rowid.
  rewrite bool_decide_eq_false_2 by lia. rewrite bool_decide_eq_false_2 by lia.
  f_equal. lia.
Qed.

Lemma check_not_null_expense r :
  check_not_null expenses_columns (expense_values r) =
  if real_is_nan (e_amount r) then Some "expenses.amount"%string else None.
Proof.
  destruct r as [id dt amt cat sub nt]; simpl.
  unfold bind_double. destruct (real_is_nan amt); reflexivity.
Qed.

Lemma insert_row_inv date amount category sub note t id t' :
  insert_row date amount category sub note t = inr (id, t') ->
  new_rowid t = inr id /\ real_is_nan amount = false /\
  t' = mk_table (t_rows t ++ [mk_expense id date amount category sub note]) id.
Proof.
  unfold insert_row. intros H. res_inv.
  rewrite check_not_null_expense in H0. simpl in H0.
  destruct (real_is_nan amount); [discriminate|]. by simplify_eq.
Qed.

Lemma new_rowid_gt t id :
  table_wf t -> new_rowid t = inr id -> id = t_seq t + 1 /\ t_seq t < max_rowid.
Proof.
  intros Hwf Hid. destruct (decide (t_seq t < max_rowid)).
  - rewrite new_rowid_wf in Hid by done. by simplify_eq.
  - unfold new_rowid in Hid. destruct Hwf as (_ & _ & ? & _).
    rewrite (bool_decide_eq_true_2 (t_seq t = max_rowid)) in Hid by lia.
    by case_bool_decide.
Qed.

Lemma insert_row_result date amount category sub note t id t' :
  table_wf t ->
  insert_row date amount category sub note t = inr (id, t') ->
  id = t_seq t + 1 /\ t_seq t < max_rowid /\ real_is_nan amount = false /\
  t' = mk_table (t_rows t ++ [mk_expense id date amount category sub note]) id.
Proof.
  intros Hwf H. apply insert_row_inv in H as (Hid & Hnan & ->).
  by apply new_rowid_gt in Hid as [-> Hlt].
Qed.

Lemma table_wf_snoc t date amount category sub note :
  table_wf t -> t_seq t < max_rowid -> real_is_nan amount = false ->
  table_wf (mk_table (t_rows t ++
    [mk_expense (t_seq t + 1) date amount category sub note]) (t_seq t + 1)).
Proof.
  intros (Hsorted & Hids & Hseq & Hamt) Hlt Hnan.
  unfold table_wf, row_ids in *. simpl. rewrite map_app. simpl.
  refine (conj _ (conj _ (conj _ _))).
  - apply Sorted_snoc_Forall; [done|]. apply Forall_map.
    eapply Forall_impl; [exact Hids|]. simpl; lia.
  - apply Forall_app; split; [|constructor; simpl; [lia|done]].
    eapply Forall_impl; [exact Hids|]. simpl; lia.
  - lia.
  - apply Forall_app; split; [done|]. by constructor.
Qed.

(** The INSERT on a well-formed table with room left, on both branches
    of the NOT NULL check. *)
Lemma insert_row_eq date amount category sub note t :
  table_wf t -> t_seq t < max_rowid ->
  insert_row date amount category sub note t =
  if real_is_nan amount then inl (NotNullFailed "expenses.amount")
  else inr (t_seq t + 1,
            mk_table (t_rows t ++
                      [mk_expense (t_seq t + 1) date amount category sub note])
                     (t_seq t + 1)).
Proof.
  intros Hwf Hlt. unfold insert_row.
  rewrite new_rowid_wf by done. cbn [res_bind].
  rewrite check_not_null_expense. simpl. by destruct (real_is_nan amount).
Qed.

(** ** Theorems on the INSERT *)

(** C4: on a well-formed table with room left and a non-NaN amount, the
    INSERT succeeds, returns [seq + 1] as [lastrowid], appends exactly the
    given row with that id, and records the id in [sqlite_sequence]. *)
Theorem insert_row_ok date amount category sub note t :
  table_wf t -> t_seq t < max_rowid -> real_is_nan amount = false ->
  insert_row date amount category sub note t =
  inr (t_seq t + 1,
       mk_table (t_rows t ++
                 [mk_expense (t_seq t + 1) date amount category sub note])
                (t_seq t + 1)).
Proof.
  intros Hwf Hlt Hnan. by rewrite insert_row_eq, Hnan.
Qed.

(** C29: a NaN amount is bound as NULL and the INSERT fails with the
    NOT NULL constraint of [amount]; no row is written. *)
Theorem insert_row_nan date amount category sub note t :
  table_wf t -> t_seq t < max_rowid -> real_is_nan amount = true ->
  insert_row date amount category sub note t =
  inl (NotNullFailed "expenses.amount").
Proof.
  intros Hwf Hlt Hnan. by rewrite insert_row_eq, Hnan.
Qed.

(** C30: once [sqlite_sequence] has reached the largest rowid, every INSERT
    fails with SQLITE_FULL, whatever the values. *)
Theorem insert_row_full date amount category sub note t :
  t_seq t = max_rowid ->
  insert_row date amount category sub note t = inl DatabaseFull.
Proof.
  intros Hseq. unfold insert_row, new_rowid.
  case_bool_decide; [done|]. by rewrite bool_decide_eq_true_2.
Qed.

(** C27: the INSERT preserves the table invariant. *)
Theorem insert_row_wf date amount category sub note t id t' :
  table_wf t ->
  insert_row date amount category sub note t = inr (id, t') ->
  table_wf t'.
Proof.
  intros Hwf (-> & Hlt & Hnan & ->)%insert_row_result; [|done].
  by apply table_wf_snoc.
Qed.

(** C28: the id an INSERT returns is larger than every id already in the
    table, hence fresh, and the rows already stored are kept unchanged in
    front of the new one. *)
Theorem insert_row_fresh date amount category sub note t id t' :
  table_wf t ->
  insert_row date amount category sub note t = inr (id, t') ->
  Forall (fun i => i < id) (row_ids (t_rows t)) /\ (id ∉ row_ids (t_rows t)) /\
  t_rows t' = t_rows t ++ [mk_expense id date amount category sub note].
Proof.
  intros Hwf (-> & _ & _ & ->)%insert_row_result; [|done].
  destruct Hwf as (_ & Hids & _).
  assert (Hlt : Forall (fun i => i < t_seq t + 1) (row_ids (t_rows t))).
  { apply Forall_map. eapply Forall_impl; [exact Hids|]. simpl; lia. }
  split_and!; [done| |done].
  intros Hin. rewrite Forall_forall in Hlt. apply Hlt in Hin. lia.
Qed.

(** ** Witnesses: a one-row table and inserts into it. *)
Definition amount_42_50 : real := real_of 85 (-1).
Definition amount_nan : real := real_nan.

Definition sample_table : table :=
  mk_table [mk_expense 1 "2024-01-15" amount_42_50 "Food" None None] 1.

Lemma insert_row_ok_witness :
  table_wf sample_table /\ t_seq sample_table < max_rowid /\
  real_is_nan (real_of 5 0) = false /\
  insert_row "2024-02-01" (real_of 5 0) "Travel" (Some "Train") None
    sample_table =
  inr (2, mk_table (t_rows sample_table ++
        [mk_expense 2 "2024-02-01" (real_of 5 0) "Travel" (Some "Train") None]) 2).
Proof.
  assert (Hwf : table_wf sample_table) by decide_by_eval.
  assert (Hlt : t_seq sample_table < max_rowid) by (vm_compute; reflexivity).
  assert (Hn : real_is_nan (real_of 5 0) = false) by reflexivity.
  split; [exact Hwf|]. split; [exact Hlt|]. split; [exact Hn|].
  exact (insert_row_ok "2024-02-01" (real_of 5 0) "Travel" (Some "Train") None
           sample_table Hwf Hlt Hn).
Defined.

Lemma insert_row_nan_witness :
  table_wf sample_table /\ t_seq sample_table < max_rowid /\
  real_is_nan amount_nan = true /\
  insert_row "2024-02-01" amount_nan "Travel" None None sample_table =
  inl (NotNullFailed "expenses.amount").
Proof.
  assert (Hwf : table_wf sample_table) by decide_by_eval.
  assert (Hlt : t_seq sample_table < max_rowid) by (vm_compute; reflexivity).
  assert (Hn : real_is_nan amount_nan = true) by reflexivity.
  split; [exact Hwf|]. split; [exact Hlt|]. split; [exact Hn|].
  exact (insert_row_nan "2024-02-01" amount_nan "Travel" None None
           sample_table Hwf Hlt Hn).
Defined.

Definition full_table : table := mk_table [] max_rowid.

Lemma insert_row_full_witness :
  t_seq full_table = max_rowid /\
  insert_row "2024-02-01" amount_42_50 "Food" None None full_table =
  inl DatabaseFull.
Proof.
  assert (Hs : t_seq full_table = max_rowid) by reflexivity.
  split; [exact Hs|].
  exact (insert_row_full "2024-02-01" amount_42_50 "Food" None None full_table Hs).
Defined.

Lemma insert_row_wf_witness :
  table_wf sample_table /\
  insert_row "2024-02-01" amount_42_50 "Food" None None sample_table =
    inr (2, mk_table (t_rows sample_table ++
          [mk_expense 2 "2024-02-01" amount_42_50 "Food" None None]) 2) /\
  table_wf (mk_table (t_rows sample_table ++
          [mk_expense 2 "2024-02-01" amount_42_50 "Food" None None]) 2).
Proof.
  assert (Hwf : table_wf sample_table) by decide_by_eval.
  assert (Hi : insert_row "2024-02-01" amount_42_50 "Food" None None sample_table =
    inr (2, mk_table (t_rows sample_table ++
          [mk_expense 2 "2024-02-01" amount_42_50 "Food" None None]) 2))
    by (vm_compute; reflexivity).
  split; [exact Hwf|]. split; [exact Hi|].
  exact (insert_row_wf _ _ _ _ _ _ _ _ Hwf Hi).
Defined.

Lemma insert_row_fresh_witness :
  table_wf sample_table /\
  insert_row "2024-02-01" amount_42_50 "Food" None None sample_table =
    inr (2, mk_table (t_rows sample_table ++
          [mk_expense 2 "2024-02-01" amount_42_50 "Food" None None]) 2) /\
  2 ∉ row_ids (t_rows sample_table).
Proof.
  assert (Hwf : table_wf sample_table) by decide_by_eval.
  assert (Hi : insert_row "2024-02-01" amount_42_50 "Food" None None sample_table =
    inr (2, mk_table (t_rows sample_table ++
          [mk_expense 2 "2024-02-01" amount_42_50 "Food" None None]) 2))
    by (vm_compute; reflexivity).
  split; [exact Hwf|]. split; [exact Hi|].
  exact (proj1 (proj2 (insert_row_fresh _ _ _ _ _ _ _ _ Hwf Hi))).
Defined.

End Store.
