(* ===== verification/Connection.v ===== *)
(** A connection of Python's [sqlite3] module (through [aiosqlite]) to
    the database file, as every tool call opens one with
    [async with aiosqlite.connect(DB_PATH) as db] (src/main.py lines 44,
    60 and 94).  A connection holds the file as committed, which is what
    every other connection sees, and the transaction it has open, if
    any, with the database as that transaction sees it.  [execute] of a
    DML statement first opens a transaction (the module's default, legacy,
    transaction control issues [BEGIN] when none is open); [commit]
    publishes it; leaving the [async with] block closes the connection,
    whether the block raised or not, and closing rolls back a transaction
    that is still open.  The operations are threaded through [conn_m], a
    small state and error monad over the connection. *)
From S2P Require Import Prelude Sql Schema Store.
Import Sql Schema.

Module Connection.

Record connection : Type := mk_connection {
  cn_file : database;            (** the file: what other connections read *)
  cn_txn : option database;      (** the open transaction's database *)
}.

(** What the connection's statements read and write. *)
Definition cn_view (c : connection) : database := default (cn_file c) (cn_txn c).

(** ** The monad: the value or the exception of an operation, and the
    connection after it.  An exception keeps the connection's state as
    the failing operation left it. *)
Definition conn_m (A : Type) : Type := connection -> res storage_error A * connection.

Definition cm_ret {A} (a : A) : conn_m A := fun c => (inr a, c).

Definition cm_bind {A B} (m : conn_m A) (k : A -> conn_m B) : conn_m B :=
  fun c => match m c with
           | (inl e, c') => (inl e, c')
           | (inr a, c') => k a c'
           end.

Notation "'let!' x := m 'in' k" := (cm_bind m (fun x => k))
  (at level 200, x name, m at level 100, k at level 200) : expense_scope.

(** ** [aiosqlite.connect(DB_PATH)]: [fault] is the error opening the file
    raises, if any.  A new connection has no transaction open. *)
Definition connect (fault : option storage_error) (d : database)
    : res storage_error connection :=
  match fault with
  | Some e => inl e
  | None => inr (mk_connection d None)
  end.

(** The implicit [BEGIN] before a DML statement. *)
Definition begin (c : connection) : connection :=
  match cn_txn c with
  | Some _ => c
  | None => mk_connection (cn_file c) (Some (cn_file c))
  end.

(** ** [db.execute("INSERT INTO expenses(...) VALUES (?, ?, ?, ?, ?)", ...)]
    (lines 45-48).  Preparing the statement fails when the table does
    not exist, before any [BEGIN].  Otherwise the transaction is opened
    and the INSERT runs in it: [fault] is the environment's failure of
    the step (the write lock refused: [database is locked]), and a failed
    INSERT (NOT NULL, SQLITE_FULL) is undone by the statement journal.
    Either way the transaction stays open with its database unchanged. *)
Definition execute_insert (fault : option storage_error) (date : text) (amount : real)
    (category : text) (subcategory note : option text) : conn_m Z :=
  fun c =>
    match db_expenses (cn_view c) with
    | None => (inl (NoSuchTable "expenses"), c)
    | Some _ =>
        let c1 := begin c in
        match fault with
        | Some e => (inl e, c1)
        | None =>
            match Store.insert date amount category subcategory note (cn_view c1) with
            | inl e => (inl e, c1)
            | inr (id, d') => (inr id, mk_connection (cn_file c1) (Some d'))
            end
        end
    end.

(** ** [db.execute(query, params)] of a SELECT (lines 61-69, 95): no
    transaction is opened; the statement reads the table the connection
    sees. *)
Definition execute_select {A} (fault : option storage_error)
    (q : table -> res storage_error A) : conn_m A :=
  fun c =>
    match fault, db_expenses (cn_view c) with
    | Some e, _ => (inl e, c)
    | None, None => (inl (NoSuchTable "expenses"), c)
    | None, Some t => (q t, c)
    end.

(** ** [await db.commit()] (line 49): nothing to do without an open
    transaction; otherwise the transaction's database becomes the file,
    unless the commit fails ([fault]: the file is still locked by a
    reader), in which case the transaction stays open. *)
Definition commit (fault : option storage_error) : conn_m unit :=
  fun c =>
    match cn_txn c with
    | None => (inr tt, c)
    | Some d' =>
        match fault with
        | Some e => (inl e, c)
        | None => (inr tt, mk_connection d' None)
        end
    end.

(** ** Closing the connection ([__aexit__]): a transaction still open is
    rolled back, so the file is what was last committed. *)
Definition close (c : connection) : database := cn_file c.

(** ** [async with aiosqlite.connect(DB_PATH) as db: body]: the block runs
    on a new connection, which is closed whether the block returned or
    raised; the result is the block's, the database the closed file. *)
Definition with_connection {A} (fault : option storage_error) (d : database)
    (body : conn_m A) : res storage_error A * database :=
  match connect fault d with
  | inl e => (inl e, d)
  | inr c => let '(r, c') := body c in (r, close c')
  end.

(** ** Lemmas *)
Lemma cm_bind_inl {A B} (m : conn_m A) (k : A -> conn_m B) c e c' :
  m c = (inl e, c') -> cm_bind m k c = (inl e, c').
Proof. unfold cm_bind. by intros ->. Qed.

Lemma cm_bind_inr {A B} (m : conn_m A) (k : A -> conn_m B) c a c' :
  m c = (inr a, c') -> cm_bind m k c = k a c'.
Proof. unfold cm_bind. by intros ->. Qed.

(** A statement never changes the file: only a commit does. *)
Lemma execute_insert_file fault date amount category sub note c :
  cn_file (execute_insert fault date amount category sub note c).2 = cn_file c.
Proof.
  unfold execute_insert, begin.
  destruct (db_expenses (cn_view c)), fault, (cn_txn c); simpl; try done;
    destruct (Store.insert _ _ _ _ _ _) as [|[]]; done.
Qed.

(** A commit that raises leaves the connection as it was. *)
Lemma commit_inl fault c e c' : commit fault c = (inl e, c') -> c' = c.
Proof. unfold commit. destruct (cn_txn c), fault; congruence. Qed.

(** On a fresh connection, a successful INSERT is the INSERT on the file,
    held in the open transaction. *)
Lemma execute_insert_fresh fault date amount category sub note d r c' :
  execute_insert fault date amount category sub note (mk_connection d None) = (r, c') ->
  (exists e, r = inl e /\ cn_file c' = d) \/
  (exists id d', fault = None /\ r = inr id /\
     Store.insert date amount category sub note d = inr (id, d') /\
     c' = mk_connection d (Some d')).
Proof.
  unfold execute_insert, begin, cn_view. cbn [cn_txn cn_file default].
  destruct (db_expenses d) eqn:Ed; [|intros [= <- <-]; left; eauto].
  destruct fault; [intros [= <- <-]; left; eauto|].
  simpl. destruct (Store.insert _ _ _ _ _ d) as [e|[id d']];
    intros [= <- <-]; [left|right]; eauto 10.
Qed.

Lemma commit_txn fault d d' :
  commit fault (mk_connection d (Some d')) =
  match fault with Some e => (inl e, mk_connection d (Some d')) | None => (inr tt, mk_connection d' None) end.
Proof. reflexivity. Qed.

End Connection.
