(* ===== verification/Query.v ===== *)
(** The read path of [list_expenses] (src/main.py lines 54-71):
    [SELECT id, date, amount, category, subcategory, note FROM expenses
     WHERE date BETWEEN ? AND ? ORDER BY date DESC], evaluated as SQLite
    does (a scan in rowid order, the WHERE filter, then the sorter), its
    declarative specification, the refinement theorem between the two,
    and the projection of every row to a dict. *)
From S2P Require Import Prelude Sql PyValue Schema Store.
Import Sql Py Schema.

Module Query.

(** ** WHERE date BETWEEN ? AND ? *)
Definition in_range (start_date end_date : text) (r : expense) : Prop :=
  text_between (e_date r) start_date end_date = true.

#[export] Instance in_range_dec s e : forall r, Decision (in_range s e r).
Proof. intros r. unfold in_range. apply _. Defined.

Definition where_range (start_date end_date : text) (rows : list expense)
    : list expense :=
  filter (in_range start_date end_date) rows.

(** ** ORDER BY date DESC: [r1] may come before [r2] when
    [r1.date >= r2.date] under the BINARY collation. *)
Definition date_desc (r1 r2 : expense) : Prop :=
  cmp_ge collate_binary (e_date r1) (e_date r2).

#[export] Instance date_desc_dec : RelDecision date_desc.
Proof. intros r1 r2. unfold date_desc. apply _. Defined.

Definition order_by_date_desc (rows : list expense) : list expense :=
  merge_sort date_desc rows.

(** ** The statement: the rows it returns, in order, and their cells. *)
Definition select_rows (start_date end_date : text) (t : table) : list expense :=
  order_by_date_desc (where_range start_date end_date (t_rows t)).

(** [cur.description] of the SELECT: its column names. *)
Definition list_columns : list string :=
  ["id"; "date"; "amount"; "category"; "subcategory"; "note"].

Definition list_query (start_date end_date : text) (t : table)
    : list (list value) :=
  map expense_values (select_rows start_date end_date t).

(** [[dict(zip(cols, row)) for row in await cur.fetchall()]]. *)
Definition list_result (rows : list (list value)) : list pyval :=
  map (row_to_dict list_columns) rows.

(** ** The declarative meaning of the SELECT: the matching rows, each
    once, in an order where dates never increase.  The order of rows
    with equal dates is left open. *)
Definition list_spec (start_date end_date : text) (rows out : list expense)
    : Prop :=
  out ≡ₚ filter (in_range start_date end_date) rows /\ Sorted date_desc out.

(** The dict a stored row becomes. *)
Definition expense_dict (r : expense) : pyval :=
  PDict [("id", PInt (e_id r)); ("date", PStr (e_date r));
         ("amount", PFloat (e_amount r)); ("category", PStr (e_category r));
         ("subcategory", py_of_value (bind_opt_text (e_subcategory r)));
         ("note", py_of_value (bind_opt_text (e_note r)))].

(** ** Lemmas *)
Lemma date_desc_total : Total date_desc.
Proof.
  intros r1 r2. apply (cmp_ge_total collate_binary collate_binary_antisym).
Qed.

Lemma in_range_iff s e r :
  in_range s e r <->
  collate_binary s (e_date r) <> Gt /\ collate_binary (e_date r) e <> Gt.
Proof.
  unfold in_range. rewrite text_between_spec, (collate_binary_antisym s),
    CompOpp_neq_Gt. done.
Qed.

Lemma expense_values_length r : length (expense_values r) = 6.
Proof. reflexivity. Qed.

Lemma row_to_dict_expense r :
  real_is_nan (e_amount r) = false ->
  row_to_dict list_columns (expense_values r) = expense_dict r.
Proof.
  intros Hnan. rewrite row_to_dict_nodup; [|by vm_compute; repeat constructor; set_solver|done].
  unfold expense_values. rewrite bind_double_not_nan by done. reflexivity.
Qed.

Lemma select_rows_perm s e t :
  select_rows s e t ≡ₚ filter (in_range s e) (t_rows t).
Proof. apply merge_sort_Permutation. Qed.

Lemma select_rows_sorted s e t : Sorted date_desc (select_rows s e t).
Proof. apply Sorted_merge_sort, date_desc_total. Qed.

(** A row appended with an id larger than every stored id, and lying in
    the range, is the only returned row with that id. *)
Lemma select_rows_fresh s e rows r seq :
  Forall (fun x => (e_id x < e_id r)%Z) rows -> in_range s e r ->
  filter (fun x => Z.eqb (e_id x) (e_id r) = true)
    (select_rows s e (mk_table (rows ++ [r]) seq)) = [r].
Proof.
  intros Hlt Hin. apply Permutation_singleton_r.
  rewrite select_rows_perm. simpl. rewrite filter_app_single. rewrite decide_True by done.
  rewrite filter_app, filter_cons, decide_True by apply Z.eqb_refl.
  rewrite (proj2 (filter_nil_iff _ _)); [done|].
  apply Forall_forall. intros x [_ Hx]%list_elem_of_filter Hid.
  apply Z.eqb_eq in Hid. rewrite Forall_forall in Hlt. specialize (Hlt x Hx). lia.
Qed.

(** ** Theorems *)

(** C2: the rows [list_expenses] returns satisfy the declarative
    specification of the SELECT: exactly the rows of the table whose date
    lies in the range, each once, in non-increasing date order.  The
    merge sort of the executable model is one of the orders the
    specification allows. *)
Theorem select_rows_refines s e t :
  list_spec s e (t_rows t) (select_rows s e t).
Proof.
  split; [apply select_rows_perm|apply select_rows_sorted].
Qed.

(** C15: range inclusivity: a stored row is returned iff
    [start_date <= date <= end_date] under the BINARY collation, both
    bounds included. *)
Theorem select_rows_in s e t r :
  r ∈ select_rows s e t <->
  r ∈ t_rows t /\
  collate_binary s (e_date r) <> Gt /\ collate_binary (e_date r) e <> Gt.
Proof.
  rewrite (select_rows_perm s e t), list_elem_of_filter, in_range_iff. naive_solver.
Qed.

End Query.
