(* ===== verification/Summary.v ===== *)
(** [summarize] (src/main.py lines 74-97): the statement
    [SELECT category, SUM(amount) AS total_amount, COUNT( * ) AS count
     FROM expenses WHERE date BETWEEN ? AND ? [AND category = ?]
     GROUP BY category ORDER BY total_amount DESC],
    with the category predicate present exactly when the Python value
    [category] is truthy.  SQLite evaluates GROUP BY with a sorter on the
    group key and a scan that closes a group whenever the key changes
    ([KeySort]); the aggregates are fed the rows of a group in rowid
    order; ORDER BY then sorts the aggregated rows.  The reference
    semantics groups by distinct key; the theorems relate the two and
    state what every returned row holds. *)
From S2P Require Import Prelude KeySort Sql PyValue Schema Query.
Import Sql Py Schema Query.

Module Summary.

(** ** [if category:] on an [Optional[str]]: [None] and [""] are false. *)
Definition py_truthy (o : option string) : bool :=
  match o with None => false | Some s => negb (String.eqb s "") end.

(** The value bound to the extra [?], when the predicate is appended. *)
Definition category_param (category : option text) : option text :=
  if py_truthy category then category else None.

(** ** WHERE date BETWEEN ? AND ? [AND category = ?]; [=] on TEXT uses
    the BINARY collation. *)
Definition summary_where (start_date end_date : text) (cat : option text)
    (r : expense) : Prop :=
  in_range start_date end_date r /\
  match cat with
  | None => True
  | Some c => collate_binary (e_category r) c = Eq
  end.

#[export] Instance summary_where_dec s e c : forall r, Decision (summary_where s e c r).
Proof. intros r. unfold summary_where. destruct c; apply _. Defined.

Definition matching_rows (start_date end_date : text) (category : option text)
    (t : table) : list expense :=
  filter (summary_where start_date end_date (category_param category)) (t_rows t).

(** ** GROUP BY category *)
Definition group_by_category (rows : list expense) : list (text * list expense) :=
  group_runs e_category collate_binary (sort_key e_category collate_binary rows).

Record summary_row : Type := mk_summary_row {
  s_category : text;
  s_total : option real;
  s_count : Z;
}.

#[export] Instance summary_row_eq_dec : EqDecision summary_row.
Proof. solve_decision. Defined.

(** [category], [SUM(amount)], [COUNT( * )] of one group. *)
Definition aggregate (kg : text * list expense) : summary_row :=
  mk_summary_row kg.1 (sum_real (map e_amount kg.2)) (count_star kg.2).

(** ** ORDER BY total_amount DESC (NULL last). *)
Definition total_desc (a b : summary_row) : Prop :=
  cmp_ge nullable_real_compare (s_total a) (s_total b).

#[export] Instance total_desc_dec : RelDecision total_desc.
Proof. intros a b. unfold total_desc. apply _. Defined.

Definition order_by_total_desc (rows : list summary_row) : list summary_row :=
  merge_sort total_desc rows.

(** ** The statement *)
(** The statement as prepared, with the category predicate present
    ([Some c], [c] bound to its [?]) or absent ([None]). *)
Definition summarize_select (start_date end_date : text) (cat : option text)
    (t : table) : list summary_row :=
  order_by_total_desc
    (aggregate <$> group_by_category
       (filter (summary_where start_date end_date cat) (t_rows t))).

(** What [summarize] runs for its Python arguments. *)
Definition summarize_query (start_date end_date : text) (category : option text)
    (t : table) : list summary_row :=
  summarize_select start_date end_date (category_param category) t.

(** [cur.description] and the cells of an aggregated row. *)
Definition summary_columns : list string := ["category"; "total_amount"; "count"].

Definition summary_values (s : summary_row) : list value :=
  [VText (s_category s);
   match s_total s with None => VNull | Some r => VReal r end;
   VInteger (s_count s)].

Definition summary_result (rows : list summary_row) : list pyval :=
  map (fun s => row_to_dict summary_columns (summary_values s)) rows.

(** The dict of an aggregated row. *)
Definition summary_dict (x : summary_row) : pyval :=
  PDict [("category", PStr (s_category x));
         ("total_amount", match s_total x with None => PNone | Some r => PFloat r end);
         ("count", PInt (s_count x))].

(** ** Reference semantics: one aggregated row per distinct category of
    the matching rows, each over the rows of that category in rowid
    order. *)
Definition summary_ref (start_date end_date : text) (category : option text)
    (t : table) : list summary_row :=
  aggregate <$> ref_groups e_category (matching_rows start_date end_date category t).

(** ** Lemmas *)
Lemma total_desc_total : Total total_desc.
Proof.
  intros a b. apply (cmp_ge_total nullable_real_compare nullable_real_compare_antisym).
Qed.

Lemma group_by_category_ref rows :
  group_by_category rows ≡ₚ ref_groups e_category rows.
Proof.
  apply group_runs_ref_perm.
  - apply collate_binary_antisym.
  - apply collate_binary_eq.
  - apply collate_binary_lt_trans.
Qed.

Lemma summarize_query_perm s e c t :
  summarize_query s e c t ≡ₚ summary_ref s e c t.
Proof.
  unfold summarize_query, summarize_select, order_by_total_desc, summary_ref.
  fold (matching_rows s e c t).
  rewrite merge_sort_Permutation. f_equiv. apply group_by_category_ref.
Qed.

Lemma elem_of_summary_ref s e c t x :
  x ∈ summary_ref s e c t <->
  exists k, k ∈ e_category <$> matching_rows s e c t /\
    x = aggregate (k, filter (has_key e_category k) (matching_rows s e c t)).
Proof.
  unfold summary_ref, ref_groups. rewrite list_elem_of_fmap. split.
  - intros (y & -> & Hy). apply list_elem_of_fmap in Hy as (k & -> & Hk).
    rewrite elem_of_remove_dups in Hk. exists k. split; [exact Hk|reflexivity].
  - intros (k & Hk & ->). eexists. split; [reflexivity|].
    apply list_elem_of_fmap. exists k. split; [done|]. by apply elem_of_remove_dups.
Qed.

Lemma summary_ref_categories s e c t :
  s_category <$> summary_ref s e c t = remove_dups (e_category <$> matching_rows s e c t).
Proof.
  unfold summary_ref, ref_groups.
  induction (remove_dups (e_category <$> matching_rows s e c t)) as [|k ks IH];
    simpl; [done|]. by f_equal.
Qed.

Lemma matching_rows_category s e c t r :
  py_truthy (Some c) = true -> r ∈ matching_rows s e (Some c) t -> e_category r = c.
Proof.
  intros Ht Hr. unfold matching_rows, category_param in Hr. rewrite Ht in Hr.
  apply list_elem_of_filter in Hr as [[_ Hc] _]. by apply collate_binary_eq.
Qed.

Lemma summarize_sorted s e c t : Sorted total_desc (summarize_query s e c t).
Proof. unfold summarize_query, summarize_select. apply Sorted_merge_sort, total_desc_total. Qed.

Lemma summarize_elem s e c t x :
  x ∈ summarize_query s e c t ->
  exists r, (r ∈ matching_rows s e c t) /\
    x = aggregate (e_category r, filter (has_key e_category (e_category r)) (matching_rows s e c t)).
Proof.
  rewrite (summarize_query_perm s e c t), elem_of_summary_ref.
  intros (k & Hk & ->). apply list_elem_of_fmap in Hk as (r & -> & Hr). eauto.
Qed.

Lemma summary_result_dicts rows : summary_result rows = map summary_dict rows.
Proof.
  apply map_ext. intros x. rewrite row_to_dict_nodup; [|by vm_compute; repeat constructor; set_solver|done].
  unfold summary_values, summary_dict. destruct (s_total x); reflexivity.
Qed.

Lemma summary_ref_nodup s e c t : NoDup (s_category <$> summary_ref s e c t).
Proof. rewrite summary_ref_categories. apply NoDup_remove_dups. Qed.

(** With a truthy [category] every aggregated row has that category. *)
Lemma summarize_category_all s e c t :
  py_truthy (Some c) = true ->
  Forall (fun x => s_category x = c) (summarize_query s e (Some c) t).
Proof.
  intros Ht.
  cut (Forall (fun k => k = c) (s_category <$> summarize_query s e (Some c) t));
    [by rewrite Forall_fmap|].
  rewrite (summarize_query_perm s e (Some c) t), summary_ref_categories.
  apply Forall_forall. intros k Hk. apply elem_of_remove_dups, list_elem_of_fmap in Hk
    as (r & -> & Hr). by apply (matching_rows_category s e c t r).
Qed.

(** With a truthy [category], the filtered statement aggregates the rows
    of that category among those the unfiltered one aggregates. *)
Lemma matching_rows_some s e c t :
  py_truthy (Some c) = true ->
  matching_rows s e (Some c) t = filter (has_key e_category c) (matching_rows s e None t).
Proof.
  intros Ht. unfold matching_rows, category_param. rewrite Ht. cbn [py_truthy].
  rewrite list_filter_filter. apply list_filter_iff. intros r.
  unfold summary_where, has_key. rewrite collate_binary_eq. tauto.
Qed.

Lemma filter_has_key_idemp k (l : list expense) :
  filter (has_key e_category k) (filter (has_key e_category k) l) = filter (has_key e_category k) l.
Proof. rewrite list_filter_filter. apply list_filter_iff. tauto. Qed.

(** The counts of the aggregated groups add up to the number of rows
    grouped. *)
Lemma counts_concat (gs : list (text * list expense)) :
  foldr Z.add 0%Z (s_count <$> (aggregate <$> gs)) = Z.of_nat (length (concat gs.*2)).
Proof.
  induction gs as [|[k g] gs IH]; [done|].
  cbn [fmap list_fmap foldr concat fst snd]. rewrite IH, length_app.
  unfold aggregate, count_star. simpl. lia.
Qed.

(** Appending a row in the date range to the table appends it to the
    rows [summarize] aggregates when no category is given. *)
Lemma matching_rows_snoc s e t n r :
  in_range s e r ->
  matching_rows s e None (mk_table (t_rows t ++ [r]) n) = matching_rows s e None t ++ [r].
Proof.
  intros Hr. unfold matching_rows, category_param. cbn [py_truthy t_rows].
  rewrite filter_app_single. case_decide as H; [done|]. exfalso. by apply H.
Qed.

(** After appending [r], the row of its category aggregates the rows it
    had, then [r]: one more to count, and [r]'s amount added last to the
    binary64 sum. *)
Lemma summarize_snoc_row s e t n r :
  in_range s e r ->
  let old := filter (has_key e_category (e_category r)) (matching_rows s e None t) in
  exists x, x ∈ summarize_query s e None (mk_table (t_rows t ++ [r]) n) /\
    s_category x = e_category r /\ s_count x = (1 + count_star old)%Z /\
    s_total x = result_double (real_add (fold_left real_add (map e_amount old) real_zero) (e_amount r)).
Proof.
  intros Hr old.
  exists (aggregate (e_category r, filter (has_key e_category (e_category r))
                                     (matching_rows s e None (mk_table (t_rows t ++ [r]) n)))).
  split.
  - rewrite (summarize_query_perm s e None), elem_of_summary_ref.
    exists (e_category r). split; [|reflexivity].
    rewrite matching_rows_snoc by done. apply list_elem_of_fmap. exists r. split; [done|set_solver].
  - rewrite matching_rows_snoc, filter_app_single by done. case_decide as H; [|by destruct H].
    unfold aggregate, count_star. cbn [fst snd s_category s_count s_total].
    rewrite map_app. cbn [map]. rewrite sum_real_snoc, length_app. cbn [length].
    split_and!; [done|unfold old; lia|done].
Qed.

(** The rows of the other categories are unchanged. *)
Lemma summarize_snoc_other s e t n r y :
  in_range s e r -> y ∈ summarize_query s e None (mk_table (t_rows t ++ [r]) n) ->
  s_category y <> e_category r -> y ∈ summarize_query s e None t.
Proof.
  intros Hr Hy Hne. rewrite (summarize_query_perm s e None), elem_of_summary_ref in Hy |- *.
  rewrite matching_rows_snoc in Hy by done. destruct Hy as (k & Hk & ->).
  cbn [aggregate s_category fst] in Hne. rewrite filter_app_single in *.
  case_decide as H; [by destruct Hne|]. rewrite app_nil_r.
  exists k. split; [|done]. rewrite fmap_app in Hk. apply elem_of_app in Hk as [Hk|Hk]; [done|].
  set_solver.
Qed.

(** ** Theorems *)

(** C3: the rows [summarize] returns are the reference grouping of the
    matching rows (one row per category, SUM and COUNT over that
    category's rows in rowid order), in some order, and they are ordered
    by non-increasing [total_amount]. *)
Theorem summarize_refines s e c t :
  summarize_query s e c t ≡ₚ summary_ref s e c t /\
  Sorted total_desc (summarize_query s e c t).
Proof.
  split; [apply summarize_query_perm|apply summarize_sorted].
Qed.

(** C16: every row [summarize] returns is the aggregate of one category
    of the matching rows: its category occurs among them, [count] is the
    number of matching rows of that category and [total_amount] the SUM
    of their amounts in rowid order; and every such aggregate is
    returned. *)
Theorem summarize_in s e c t x :
  x ∈ summarize_query s e c t <->
  (exists r, r ∈ matching_rows s e c t /\ e_category r = s_category x) /\
  s_count x = count_star (filter (has_key e_category (s_category x)) (matching_rows s e c t)) /\
  s_total x = sum_real (map e_amount (filter (has_key e_category (s_category x)) (matching_rows s e c t))).
Proof.
  rewrite (summarize_query_perm s e c t), elem_of_summary_ref. split.
  - intros (k & Hk & ->). simpl. apply list_elem_of_fmap in Hk as (r & -> & Hr). eauto.
  - intros ((r & Hr & Hcat) & Hcount & Htotal). exists (s_category x). split.
    + apply list_elem_of_fmap. exists r. by rewrite Hcat.
    + destruct x. simpl in *. by subst.
Qed.

(** C31: no category is returned twice. *)
Theorem summarize_nodup s e c t :
  NoDup (s_category <$> summarize_query s e c t).
Proof. rewrite (summarize_query_perm s e c t). apply summary_ref_nodup. Qed.

(** C19: with a non-empty [category] the filter is applied: every returned
    row has that category, so at most one row is returned. *)
Theorem summarize_category_filter s e c t :
  py_truthy (Some c) = true ->
  Forall (fun x => s_category x = c) (summarize_query s e (Some c) t) /\
  length (summarize_query s e (Some c) t) <= 1.
Proof.
  intros Ht. pose proof (summarize_category_all s e c t Ht) as Hall.
  split; [done|]. rewrite <- (length_fmap s_category).
  apply (NoDup_Forall_eq_length _ c); [|by apply Forall_fmap].
  rewrite (summarize_query_perm s e (Some c) t). apply summary_ref_nodup.
Qed.

(** C33: every returned row counts at least one expense. *)
Theorem summarize_count_pos s e c t x :
  x ∈ summarize_query s e c t -> (1 <= s_count x)%Z.
Proof.
  intros (r & Hr & ->)%summarize_elem. simpl.
  unfold count_star. destruct (filter _ _) eqn:Ef; simpl; [|lia].
  exfalso. apply (filter_nil_not_elem_of _ _ r Ef); [done|exact Hr].
Qed.

(** C32: [total_amount] is NULL ([None] in Python) exactly when the
    binary64 sum of the category's amounts is NaN, for instance when the
    category holds both an infinite amount and its opposite. *)
Theorem summarize_total_null s e c t x :
  x ∈ summarize_query s e c t ->
  (s_total x = None <->
   real_is_nan (fold_left real_add
     (map e_amount (filter (has_key e_category (s_category x)) (matching_rows s e c t)))
     real_zero) = true).
Proof.
  intros (r & Hr & ->)%summarize_elem. simpl.
  destruct (filter _ _) eqn:Ef.
  - exfalso. apply (filter_nil_not_elem_of _ _ r Ef); [done|exact Hr].
  - unfold sum_real, result_double. simpl map.
    destruct (real_is_nan _); split; congruence.
Qed.

(** C17: with a non-empty [category], [summarize] returns exactly
    the row of that category in the summary of all categories over the
    same range, or nothing when no expense of the range has it: the same
    [count] and the same binary64 [total_amount], since both statements
    sum the same rows in rowid order. *)
Theorem summarize_category_restrict s e c t :
  py_truthy (Some c) = true ->
  summarize_query s e (Some c) t =
  filter (fun x => s_category x = c) (summarize_query s e None t).
Proof.
  intros Ht. pose proof (summarize_category_all s e c t Ht) as Hall.
  assert (Hnd : forall c', NoDup (summarize_query s e c' t)).
  { intros c'. apply (NoDup_fmap_1 s_category).
    rewrite (summarize_query_perm s e c' t). apply summary_ref_nodup. }
  apply Permutation_le1_eq.
  - apply NoDup_Permutation; [done|by apply NoDup_filter|]. intros x.
    rewrite list_elem_of_filter, !(summarize_query_perm s e _ t), !elem_of_summary_ref,
      (matching_rows_some s e c t Ht).
    split.
    + intros (k & (r & -> & [Hc Hr]%list_elem_of_filter)%list_elem_of_fmap & ->).
      unfold has_key in Hc. subst c. split; [done|].
      exists (e_category r). rewrite filter_has_key_idemp.
      split; [apply list_elem_of_fmap; eauto|done].
    + intros [Hcat (k & Hk & ->)]. cbn in Hcat. subst k.
      exists c. rewrite filter_has_key_idemp. split; [|done].
      apply list_elem_of_fmap in Hk as (r & Hr & Hin). apply list_elem_of_fmap.
      exists r. split; [done|]. apply list_elem_of_filter. done.
  - rewrite <- (length_fmap s_category).
    apply (NoDup_Forall_eq_length _ c); [|by apply Forall_fmap].
    rewrite (summarize_query_perm s e (Some c) t). apply summary_ref_nodup.
Qed.

(** C18: [summarize] and [list_expenses] agree: over the same range
    and without a category, the [count]s of the rows [summarize] returns
    add up to the number of rows [list_expenses] returns. *)
Theorem summarize_counts_total s e t :
  foldr Z.add 0%Z (s_count <$> summarize_query s e None t) =
  Z.of_nat (length (select_rows s e t)).
Proof.
  unfold summarize_query, summarize_select, order_by_total_desc.
  rewrite merge_sort_Permutation, counts_concat.
  unfold group_by_category. rewrite group_runs_concat, sort_key_perm, select_rows_perm.
  do 2 f_equal. apply list_filter_iff. intros r. unfold summary_where, category_param. simpl. tauto.
Qed.

(** ** Witnesses *)
Definition food_travel_table : table := mk_table [
  mk_expense 1 "2024-01-05" (real_of 10 0) "Food" None None;
  mk_expense 2 "2024-01-10" (real_of 20 0) "Food" None None;
  mk_expense 3 "2024-01-12" (real_of 5 0) "Travel" None None] 3.

Definition infinite_table : table := mk_table [
  mk_expense 1 "2024-01-05" (real_inf false) "Food" None None;
  mk_expense 2 "2024-01-10" (real_inf true) "Food" None None;
  mk_expense 3 "2024-01-12" (real_of 5 0) "Travel" None None] 3.

Lemma summarize_category_filter_witness :
  py_truthy (Some "Travel") = true /\
  Forall (fun x => s_category x = "Travel")
    (summarize_query "2024-01-01" "2024-01-31" (Some "Travel") food_travel_table) /\
  length (summarize_query "2024-01-01" "2024-01-31" (Some "Travel") food_travel_table) <= 1.
Proof.
  assert (H : py_truthy (Some "Travel") = true) by reflexivity.
  split; [exact H|].
  exact (summarize_category_filter "2024-01-01" "2024-01-31" "Travel" food_travel_table H).
Defined.

Lemma summarize_count_pos_witness :
  mk_summary_row "Food" (Some (real_of 30 0)) 2
    ∈ summarize_query "2024-01-01" "2024-01-31" None food_travel_table /\
  (1 <= 2)%Z.
Proof.
  assert (H : mk_summary_row "Food" (Some (real_of 30 0)) 2
    ∈ summarize_query "2024-01-01" "2024-01-31" None food_travel_table) by decide_by_eval.
  split; [exact H|].
  exact (summarize_count_pos _ _ _ _ _ H).
Defined.

Lemma summarize_total_null_witness :
  mk_summary_row "Food" None 2
    ∈ summarize_query "2024-01-01" "2024-01-31" None infinite_table /\
  (s_total (mk_summary_row "Food" None 2) = None <->
   real_is_nan (fold_left real_add
     (map e_amount (filter (has_key e_category "Food")
        (matching_rows "2024-01-01" "2024-01-31" None infinite_table)))
     real_zero) = true).
Proof.
  assert (H : mk_summary_row "Food" None 2
    ∈ summarize_query "2024-01-01" "2024-01-31" None infinite_table) by decide_by_eval.
  split; [exact H|].
  exact (summarize_total_null _ _ _ _ _ H).
Defined.

Lemma summarize_category_restrict_witness :
  py_truthy (Some "Food") = true /\
  summarize_query "2024-01-01" "2024-01-31" (Some "Food") food_travel_table =
  filter (fun x => s_category x = "Food")
    (summarize_query "2024-01-01" "2024-01-31" None food_travel_table).
Proof.
  assert (H : py_truthy (Some "Food") = true) by reflexivity.
  split; [exact H|]. exact (summarize_category_restrict _ _ _ _ H).
Defined.

End Summary.
