(* ===== verification/QueryBuilder.v ===== *)
(** The SQL text and the parameters of the three statements of
    src/main.py as the code builds them: the INSERT of [add_expense]
    (lines 45-48), the SELECT of [list_expenses] (lines 61-69) and the
    query of [summarize], assembled by string concatenation and
    [params.append] (lines 81-92).  Then the two statements [summarize]
    can prepare, with the value SQLite binds to each placeholder, and the
    theorems: every placeholder gets a parameter, no caller-supplied value
    ever enters the SQL text, and the prepared statement is the one the
    [Summary] model evaluates. *)
From S2P Require Import Prelude Sql Schema Query Summary.
From Stdlib Require Ascii.
Import Sql Schema Query Summary.

Module QueryBuilder.

(** A newline (code 10) and the placeholder character [?] (code 63). *)
Definition nl : string := String (Ascii.ascii_of_nat 10) EmptyString.
Definition qmark : Ascii.ascii := Ascii.ascii_of_nat 63.

(** ** The literals, whitespace included. *)
Definition insert_sql : string :=
  "INSERT INTO expenses(date, amount, category, subcategory, note) VALUES (?, ?, ?, ?, ?)".

Definition list_sql : string :=
  nl ++ "            SELECT id, date, amount, category, subcategory, note" ++
  nl ++ "            FROM expenses" ++
  nl ++ "            WHERE date BETWEEN ? AND ?" ++
  nl ++ "            ORDER BY date DESC" ++
  nl ++ "            ".

Definition summarize_sql_base : string :=
  nl ++ "        SELECT category, SUM(amount) AS total_amount, COUNT(*) AS count" ++
  nl ++ "        FROM expenses" ++
  nl ++ "        WHERE date BETWEEN ? AND ?" ++
  nl ++ "    ".

Definition summarize_sql_category : string := " AND category = ?".

Definition summarize_sql_tail : string := " GROUP BY category ORDER BY total_amount DESC".

(** ** The parameter tuples, as bound values. *)
Definition insert_params (date : text) (amount : real) (category : text)
    (subcategory note : option text) : list value :=
  [VText date; bind_double amount; VText category;
   bind_opt_text subcategory; bind_opt_text note].

Definition list_params (start_date end_date : text) : list value :=
  [VText start_date; VText end_date].

(** ** Lines 81-92: [query] and [params] of [summarize]. *)
Definition build_summarize (start_date end_date : text) (category : option text)
    : string * list value :=
  let query := summarize_sql_base in
  let params := [VText start_date; VText end_date] in
  let '(query, params) :=
    if py_truthy category
    then (String.append query summarize_sql_category, app params [bind_opt_text category])
    else (query, params) in
  (String.append query summarize_sql_tail, params).

(** The number of [?] placeholders of an SQL text. *)
Fixpoint count_placeholders (q : string) : nat :=
  match q with
  | EmptyString => 0
  | String c q' => (if Ascii.eqb c qmark then 1 else 0) + count_placeholders q'
  end.

(** ** Preparing and running a [summarize] statement: the two texts the
    builder can produce, the [i]-th placeholder bound to the [i]-th
    parameter.  A parameter list of the wrong length raises [sqlite3]'s
    ProgrammingError; the builder binds only Python [str] values, and the
    model binds nothing else (a list of texts of the right length is the
    only one it runs).  The SQL of the two texts is given its
    meaning by the [Summary] model; any other text is outside the model
    (the builder never produces one: [run_build_summarize]) and is
    reported as a failure of the call. *)
Definition run_summarize_sql (q : string) (params : list value) (t : table)
    : res storage_error (list summary_row) :=
  if String.eqb q (String.append (String.append summarize_sql_base summarize_sql_category)
                                 summarize_sql_tail) then
    match params with
    | [VText s; VText e; VText c] => inr (summarize_select s e (Some c) t)
    | _ => inl ProgrammingError
    end
  else if String.eqb q (String.append summarize_sql_base summarize_sql_tail) then
    match params with
    | [VText s; VText e] => inr (summarize_select s e None t)
    | _ => inl ProgrammingError
    end
  else inl IOError.

(** ** Preparing and running the SELECT of [list_expenses] (lines
    61-69): its text, the two dates bound to its two placeholders; a
    parameter list of the wrong length raises ProgrammingError. *)
Definition run_list_sql (q : string) (params : list value) (t : table)
    : res storage_error (list (list value)) :=
  if String.eqb q list_sql then
    match params with
    | [VText s; VText e] => inr (list_query s e t)
    | _ => inl ProgrammingError
    end
  else inl IOError.

(** ** Lemmas *)
Lemma summarize_texts_differ :
  String.eqb (String.append summarize_sql_base summarize_sql_tail)
    (String.append (String.append summarize_sql_base summarize_sql_category)
       summarize_sql_tail) = false.
Proof. reflexivity. Qed.

Lemma build_summarize_truthy s e c :
  py_truthy (Some c) = true ->
  build_summarize s e (Some c) =
  (String.append (String.append summarize_sql_base summarize_sql_category) summarize_sql_tail,
   [VText s; VText e; VText c]).
Proof. intros H. unfold build_summarize. by rewrite H. Qed.

Lemma build_summarize_falsy s e c :
  py_truthy c = false ->
  build_summarize s e c = (String.append summarize_sql_base summarize_sql_tail, [VText s; VText e]).
Proof. intros H. unfold build_summarize. by rewrite H. Qed.

(** ** Theorems *)

(** C20: every placeholder of every statement gets exactly one parameter:
    the number of [?] in the text equals the length of the bound tuple,
    for the INSERT, the SELECT of [list_expenses], and both shapes of the
    [summarize] query. *)
Theorem placeholders_match date amount category sub note s e c :
  count_placeholders insert_sql = length (insert_params date amount category sub note) /\
  count_placeholders list_sql = length (list_params s e) /\
  count_placeholders (build_summarize s e c).1 = length (build_summarize s e c).2.
Proof.
  split_and!; [reflexivity|reflexivity|].
  unfold build_summarize. by destruct (py_truthy c).
Qed.

(** C21: no caller-supplied value enters the SQL text of [summarize]: the
    text depends only on whether [category] is truthy, and the values are
    passed only as bound parameters. *)
Theorem build_summarize_text_independent s e c s' e' c' :
  py_truthy c = py_truthy c' ->
  (build_summarize s e c).1 = (build_summarize s' e' c').1.
Proof. intros H. unfold build_summarize. rewrite H. by destruct (py_truthy c'). Qed.

(** The statement [summarize] prepares, with its parameters bound in
    order, is the one the [Summary] model evaluates: with a truthy
    [category] the third placeholder receives the category, otherwise the
    category predicate is absent. *)
Lemma run_build_summarize s e c t :
  run_summarize_sql (build_summarize s e c).1 (build_summarize s e c).2 t =
  inr (summarize_query s e c t).
Proof.
  unfold summarize_query, category_param.
  destruct (py_truthy c) eqn:Ht.
  - destruct c as [c|]; [|discriminate].
    rewrite build_summarize_truthy by done. simpl.
    unfold run_summarize_sql. by rewrite String.eqb_refl.
  - rewrite build_summarize_falsy by done. simpl.
    unfold run_summarize_sql. by rewrite summarize_texts_differ, String.eqb_refl.
Qed.

(** The statement [list_expenses] prepares, with its two dates bound, is
    the one the [Query] model evaluates. *)
Lemma run_list_params s e t : run_list_sql list_sql (list_params s e) t = inr (list_query s e t).
Proof. unfold run_list_sql. by rewrite String.eqb_refl. Qed.

Lemma build_summarize_text_independent_witness :
  py_truthy (Some "Food") = py_truthy (Some "Travel") /\
  (build_summarize "2024-01-01" "2024-01-31" (Some "Food")).1 =
  (build_summarize "1999-01-01" "1999-12-31" (Some "Travel")).1.
Proof.
  assert (H : py_truthy (Some "Food") = py_truthy (Some "Travel")) by reflexivity.
  split; [exact H|].
  exact (build_summarize_text_independent _ _ _ _ _ _ H).
Defined.

End QueryBuilder.
