(* ===== verification/Tools.v ===== *)
(** The three MCP tools of src/main.py as handlers over the database
    state: [add_expense] (lines 35-51), [list_expenses] (lines 54-71) and
    [summarize] (lines 74-97).  Each is an [async with
    aiosqlite.connect(DB_PATH)] block of [Connection] operations: it runs
    its statement and, for the insert, commits; leaving the block closes
    the connection, which rolls back a transaction that was not
    committed.
    The environment may make any of these steps fail ([faults]); the
    failure propagates to FastMCP as an exception. *)
From S2P Require Import Prelude KeySort Sql PyValue Schema Store Connection Query Summary QueryBuilder.
Import Sql Py Schema Store Connection Query Summary QueryBuilder.

Module Tools.
Local Open Scope Z_scope.

(** ** The points where a call can fail for reasons outside the program:
    opening the file, running the statement (e.g. [database is locked]
    when another connection holds the write lock), committing. *)
Record faults : Type := mk_faults {
  f_connect : option storage_error;
  f_execute : option storage_error;
  f_commit : option storage_error;
}.

Definition no_faults : faults := mk_faults None None None.

(** [{"status": "success", "id": cur.lastrowid}] *)
Definition add_expense_reply (id : Z) : pyval :=
  PDict [("status", PStr "success"); ("id", PInt id)].

(** ** [add_expense] (lines 44-51): in [async with aiosqlite.connect]
    the INSERT, then the commit; the reply carries [cur.lastrowid].  If
    the INSERT or the commit raises, the block is left by the exception
    and closing the connection rolls the transaction back. *)
Definition add_expense (fl : faults) (date : text) (amount : real)
    (category : text) (subcategory note : option text) (d : database)
    : res storage_error pyval * database :=
  with_connection (f_connect fl) d
    (let! id := execute_insert (f_execute fl) date amount category subcategory note in
     let! _ := commit (f_commit fl) in
     cm_ret (add_expense_reply id)).

(** ** Running a read-only statement on the table: connect, execute,
    fetch, close.  A read never changes the file. *)
Definition run_statement {A} (fl : faults) (d : database)
    (q : table -> res storage_error A) : res storage_error A :=
  (with_connection (f_connect fl) d (execute_select (f_execute fl) q)).1.

(** ** [list_expenses]: the list of row dicts. *)
Definition list_expenses (fl : faults) (start_date end_date : text) (d : database)
    : res storage_error pyval :=
  run_statement fl d (fun t =>
    let? rows := run_list_sql list_sql (list_params start_date end_date) t in
    inr (PList (list_result rows))).

(** ** [summarize]: build [query] and [params], run the statement, turn
    the rows into dicts. *)
Definition summarize (fl : faults) (start_date end_date : text)
    (category : option text) (d : database) : res storage_error pyval :=
  let '(query, params) := build_summarize start_date end_date category in
  run_statement fl d (fun t =>
    let? rows := run_summarize_sql query params t in
    inr (PList (summary_result rows))).

(** Whether a returned dict has the given ["id"]. *)
Definition has_id (id : Z) (p : pyval) : bool :=
  match py_get p "id" with Some (PInt z) => Z.eqb z id | _ => false end.

(** ** A client making calls one after the other: the order in which the
    store's write lock serialises concurrent [add_expense] calls. *)
Record call_args : Type := mk_call_args {
  a_date : text;
  a_amount : real;
  a_category : text;
  a_subcategory : option text;
  a_note : option text;
}.

Fixpoint add_expenses (calls : list call_args) (d : database)
    : res storage_error (list pyval) * database :=
  match calls with
  | [] => (inr [], d)
  | c :: cs =>
      match add_expense no_faults (a_date c) (a_amount c) (a_category c)
              (a_subcategory c) (a_note c) d with
      | (inl e, d1) => (inl e, d1)
      | (inr p, d1) =>
          match add_expenses cs d1 with
          | (inl e, d2) => (inl e, d2)
          | (inr ps, d2) => (inr (p :: ps), d2)
          end
      end
  end.

(** ** The shapes of the replies (spec section 6):
    [{status, id}], the rows of [list_expenses], the rows of
    [summarize]. *)
Definition add_reply_type : pytype := TyDict [("status", TyStr); ("id", TyInt)].

Definition expense_dict_type : pytype :=
  TyDict [("id", TyInt); ("date", TyStr); ("amount", TyFloat); ("category", TyStr);
          ("subcategory", TyOptional TyStr); ("note", TyOptional TyStr)].

Definition summary_dict_type : pytype :=
  TyDict [("category", TyStr); ("total_amount", TyOptional TyFloat); ("count", TyInt)].

(** ** Lemmas *)
Lemma insert_inv date amount category sub note d id d' :
  Store.insert date amount category sub note d = inr (id, d') ->
  exists t t', db_expenses d = Some t /\
    Store.insert_row date amount category sub note t = inr (id, t') /\
    d' = mk_database (Some t').
Proof.
  unfold Store.insert. destruct (db_expenses d) as [t|]; [|done].
  intros H. res_inv. destruct x as [id' t']. simpl in H0. injection H0 as <- <-.
  eauto.
Qed.

Lemma add_expense_inv fl date amount category sub note d r d' :
  add_expense fl date amount category sub note d = (r, d') ->
  (d' = d /\ exists e, r = inl e) \/
  (fl = no_faults /\ exists id,
     Store.insert date amount category sub note d = inr (id, d') /\
     r = inr (add_expense_reply id)).
Proof.
  unfold add_expense, with_connection, connect.
  destruct fl as [fc fx fm]. cbn [f_connect f_execute f_commit].
  destruct fc as [ec|]; [intros [= <- <-]; left; eauto|].
  destruct (execute_insert fx date amount category sub note (mk_connection d None))
    as [r1 c1] eqn:Ex.
  pose proof (execute_insert_fresh _ _ _ _ _ _ _ _ _ Ex)
    as [(e & -> & Hf)|(id & d'' & -> & -> & Hins & ->)].
  - rewrite (cm_bind_inl _ _ _ _ c1) by done. intros [= <- <-]. left. eauto.
  - rewrite (cm_bind_inr _ _ _ id (mk_connection d (Some d''))) by done.
    unfold cm_bind. rewrite commit_txn. destruct fm as [em|].
    + intros [= <- <-]. left. eauto.
    + intros [= <- <-]. right. eauto.
Qed.

Lemma insert_database_wf date amount category sub note d id d' :
  database_wf d -> Store.insert date amount category sub note d = inr (id, d') ->
  database_wf d'.
Proof.
  intros Hwf (t & t' & Ht & Hins & ->)%insert_inv.
  unfold database_wf in *. rewrite Ht in Hwf. simpl.
  apply insert_row_result in Hins as (-> & Hlt & Hnan & ->); [|done].
  by apply table_wf_snoc.
Qed.

(** Every dict [list_expenses] returns is the dict of its row. *)
Lemma list_result_wf s e t :
  table_wf t ->
  list_result (list_query s e t) = map expense_dict (select_rows s e t).
Proof.
  intros (_ & _ & _ & Hnan). unfold list_result, list_query. rewrite map_map.
  apply map_ext_in. intros r Hr. apply row_to_dict_expense.
  apply list_elem_of_In in Hr. rewrite select_rows_perm in Hr.
  apply list_elem_of_filter in Hr as [_ Hr].
  rewrite Forall_forall in Hnan. by apply Hnan.
Qed.

Lemma has_id_expense_dict id r : has_id id (expense_dict r) = Z.eqb (e_id r) id.
Proof. reflexivity. Qed.

(** Without faults, [add_expense] is the INSERT on the file, committed
    when it succeeds. *)
Lemma add_expense_no_faults date amount category sub note d :
  add_expense no_faults date amount category sub note d =
  match Store.insert date amount category sub note d with
  | inl e => (inl e, d)
  | inr (id, d') => (inr (add_expense_reply id), d')
  end.
Proof.
  unfold add_expense, with_connection, connect, execute_insert, begin, cn_view, cm_bind.
  cbn [f_connect f_execute f_commit no_faults cn_txn cn_file default].
  destruct (db_expenses d) eqn:Ed; [|by unfold Store.insert; rewrite Ed].
  change (Datatypes.id d) with d.
  by destruct (Store.insert _ _ _ _ _ d) as [e|[id d']].
Qed.

(** A read runs its query on the file's table, unless connecting or
    executing raises or the table does not exist. *)
Lemma run_statement_eq {A} fl d (q : table -> res storage_error A) :
  run_statement fl d q =
  match f_connect fl, f_execute fl, db_expenses d with
  | Some e, _, _ => inl e
  | None, Some e, _ => inl e
  | None, None, None => inl (NoSuchTable "expenses")
  | None, None, Some t => q t
  end.
Proof.
  unfold run_statement, with_connection, connect, execute_select, cn_view.
  destruct (f_connect fl); [done|]. simpl. by destruct (f_execute fl), (db_expenses d).
Qed.

(** What a read tool returns when it does not raise. *)
Lemma list_expenses_inr fl s e d p :
  list_expenses fl s e d = inr p ->
  exists t, db_expenses d = Some t /\ p = PList (list_result (list_query s e t)).
Proof.
  unfold list_expenses. rewrite run_statement_eq.
  destruct (f_connect fl), (f_execute fl), (db_expenses d) as [t|]; try discriminate.
  intros [= <-]. eauto.
Qed.

Lemma summarize_inr fl s e c d p :
  summarize fl s e c d = inr p ->
  exists t, db_expenses d = Some t /\ p = PList (map summary_dict (summarize_query s e c t)).
Proof.
  unfold summarize. pose proof (fun t => run_build_summarize s e c t) as H.
  destruct (build_summarize s e c) as [q ps]. cbn [fst snd] in H. rewrite run_statement_eq.
  destruct (f_connect fl), (f_execute fl), (db_expenses d) as [t|]; try discriminate.
  rewrite H. cbn [res_bind]. intros [= <-]. rewrite summary_result_dicts. eauto.
Qed.

Lemma expense_dict_typed r : has_type (expense_dict r) expense_dict_type.
Proof. unfold expense_dict, expense_dict_type. eauto 20 with expenses. Qed.

Lemma summary_dict_typed x : has_type (summary_dict x) summary_dict_type.
Proof.
  unfold summary_dict, summary_dict_type.
  destruct (s_total x); eauto 20 with expenses.
Qed.

(** A call of [add_expense] on a database whose table exists keeps it,
    and only appends rows to it. *)
Lemma add_expense_prefix fl date amount category sub note d t :
  db_expenses d = Some t ->
  exists t', db_expenses (add_expense fl date amount category sub note d).2 = Some t' /\
    t_rows t `prefix_of` t_rows t'.
Proof.
  intros Ht. destruct (add_expense fl date amount category sub note d) as [r d'] eqn:E.
  cbn [snd]. apply add_expense_inv in E as [[-> _]|(_ & id & Hins & _)]; [eauto|].
  apply insert_inv in Hins as (t0 & t' & Ht0 & Hrow & ->). rewrite Ht in Ht0. injection Ht0 as <-.
  apply insert_row_inv in Hrow as (_ & _ & ->). eexists. split; [done|]. by eexists.
Qed.

Lemma add_expenses_prefix calls d t :
  db_expenses d = Some t ->
  exists t', db_expenses (add_expenses calls d).2 = Some t' /\ t_rows t `prefix_of` t_rows t'.
Proof.
  revert d t. induction calls as [|c cs IH]; intros d t Ht; [eauto|]. cbn [add_expenses].
  destruct (add_expense_prefix no_faults (a_date c) (a_amount c) (a_category c)
              (a_subcategory c) (a_note c) d t Ht) as (t1 & Ht1 & Hp1).
  destruct (add_expense no_faults _ _ _ _ _ d) as [[e|p] d1]; cbn [snd] in Ht1; [eauto|].
  destruct (IH d1 t1 Ht1) as (t2 & Ht2 & Hp2).
  destruct (add_expenses cs d1) as [[e|ps] d2]; cbn [snd] in *;
    exists t2; split; [done| |done|]; by trans (t_rows t1).
Qed.

(** A successful [add_expense] on a well-formed table: the reply's id is
    [seq + 1] and the new row is appended. *)
Lemma add_expense_success fl date amount category sub note t id d' :
  table_wf t ->
  add_expense fl date amount category sub note (mk_database (Some t)) =
    (inr (add_expense_reply id), d') ->
  id = t_seq t + 1 /\ t_seq t < max_rowid /\ real_is_nan amount = false /\
  d' = mk_database (Some (mk_table (t_rows t ++ [mk_expense id date amount category sub note]) id)).
Proof.
  intros Hwf Hadd.
  apply add_expense_inv in Hadd as [[_ [? [=]]]|(_ & id' & Hins & [= <-])].
  apply insert_inv in Hins as (t0 & t' & [= <-] & Hrow & ->).
  by apply insert_row_result in Hrow as (-> & Hlt & Hnan & ->).
Qed.

(** ** Theorems *)

(** C6: no partial success: whenever [add_expense] raises, whatever
    the step that failed (connect, INSERT, commit), the database file is
    left as it was.  The INSERT only changes the connection's open
    transaction, a failed commit keeps that transaction open, and closing
    the connection on leaving [async with] rolls it back. *)
Theorem add_expense_error_atomic fl date amount category sub note d e d' :
  add_expense fl date amount category sub note d = (inl e, d') -> d' = d.
Proof.
  intros H. apply add_expense_inv in H as [[-> _]|(_ & id & _ & Hr)]; [done|discriminate].
Qed.

(** [add_expense] on a well-formed table with room left, a non-NaN
    amount and no failure of the environment replies
    [{"status": "success", "id": seq + 1}] and commits the new row. *)
Theorem add_expense_ok date amount category sub note t :
  table_wf t -> t_seq t < max_rowid -> real_is_nan amount = false ->
  add_expense no_faults date amount category sub note (mk_database (Some t)) =
  (inr (add_expense_reply (t_seq t + 1)),
   mk_database (Some (mk_table
     (t_rows t ++ [mk_expense (t_seq t + 1) date amount category sub note])
     (t_seq t + 1)))).
Proof.
  intros Hwf Hlt Hnan. rewrite add_expense_no_faults. unfold Store.insert.
  cbn [db_expenses]. by rewrite insert_row_eq, Hnan.
Qed.

(** C1: insert-then-read: after [add_expense] has returned id [N] on a
    well-formed table, [list_expenses] over a range that contains the
    date returns exactly one dict whose ["id"] is [N], and that dict holds
    the inserted values, with [None] for an absent subcategory or note. *)
Theorem add_then_list fl date amount category sub note t id d' s e :
  table_wf t ->
  add_expense fl date amount category sub note (mk_database (Some t)) =
    (inr (add_expense_reply id), d') ->
  collate_binary s date <> Gt -> collate_binary date e <> Gt ->
  exists out, list_expenses no_faults s e d' = inr (PList out) /\
    filter (fun p => has_id id p = true) out =
      [expense_dict (mk_expense id date amount category sub note)].
Proof.
  intros Hwf Hadd Hs He.
  apply add_expense_success in Hadd as (-> & Hlt & Hnan & ->); [|done].
  eexists. split; [reflexivity|].
  rewrite list_result_wf by (by apply table_wf_snoc).
  rewrite filter_map_comm.
  rewrite (filter_ext_in _ (fun r => Z.eqb (e_id r) (t_seq t + 1) = true))
    by (intros r _; by rewrite has_id_expense_dict).
  rewrite (select_rows_fresh s e (t_rows t)
             (mk_expense (t_seq t + 1) date amount category sub note)); [done| |].
  - destruct Hwf as (_ & Hids & _). eapply Forall_impl; [exact Hids|]. simpl; lia.
  - by apply in_range_iff.
Qed.

Lemma add_expenses_run calls t :
  table_wf t -> t_seq t + Z.of_nat (length calls) <= max_rowid ->
  Forall (fun c => real_is_nan (a_amount c) = false) calls ->
  exists zs t',
    add_expenses calls (mk_database (Some t)) =
      (inr (map add_expense_reply (map e_id zs)), mk_database (Some t')) /\
    t_rows t' = t_rows t ++ zs /\ map e_id zs = zseq (t_seq t + 1) (length calls) /\
    table_wf t'.
Proof.
  revert t. induction calls as [|c cs IH]; intros t Hwf Hroom Hnan.
  - exists [], t. by rewrite app_nil_r.
  - invc Hnan. simpl length in Hroom.
    destruct (IH _ (table_wf_snoc t (a_date c) (a_amount c) (a_category c)
                     (a_subcategory c) (a_note c) Hwf ltac:(lia) H1)
                ltac:(simpl; lia) H2) as (zs & t' & Hrun & Hrows & Hids & Hwf').
    exists (mk_expense (t_seq t + 1) (a_date c) (a_amount c)
              (a_category c) (a_subcategory c) (a_note c) :: zs), t'.
    simpl. rewrite add_expense_ok by (done || lia). rewrite Hrun.
    split_and!; [done| |by rewrite Hids|done].
    by rewrite Hrows; simpl; rewrite <- app_assoc.
Qed.

(** C5: [N] calls of [add_expense] made one after the other on a
    well-formed table with room for [N] more rows and non-NaN amounts all
    succeed; they return the [N] distinct ids [seq+1, ..., seq+N], and the
    table gains exactly [N] rows, appended in call order and carrying
    those ids. *)
Theorem add_expenses_distinct calls t :
  table_wf t -> t_seq t + Z.of_nat (length calls) <= max_rowid ->
  Forall (fun c => real_is_nan (a_amount c) = false) calls ->
  exists ids zs t',
    add_expenses calls (mk_database (Some t)) =
      (inr (map add_expense_reply ids), mk_database (Some t')) /\
    ids = zseq (t_seq t + 1) (length calls) /\ NoDup ids /\
    t_rows t' = t_rows t ++ zs /\ map e_id zs = ids /\ table_wf t'.
Proof.
  intros Hwf Hroom Hnan.
  destruct (add_expenses_run calls t Hwf Hroom Hnan) as (zs & t' & Hrun & Hrows & Hids & Hwf').
  exists (map e_id zs), zs, t'. rewrite Hids in *.
  split_and!; try done. apply NoDup_zseq.
Qed.

(** C12: the [list_expenses] tool on a well-formed table returns the
    list of the dicts [{"id", "date", "amount", "category", "subcategory",
    "note"}] of the rows the SELECT returns, in its order; NULL cells are
    [None]. *)
Theorem list_expenses_tool s e t :
  table_wf t ->
  list_expenses no_faults s e (mk_database (Some t)) =
  inr (PList (map expense_dict (select_rows s e t))).
Proof.
  intros Hwf. unfold list_expenses. rewrite run_statement_eq.
  cbn [f_connect f_execute no_faults db_expenses]. rewrite run_list_params.
  cbn [res_bind]. by rewrite list_result_wf.
Qed.

(** C11: the [summarize] tool builds its query and parameters, runs the
    statement and returns the list of the dicts
    [{"category", "total_amount", "count"}] of the rows of the [Summary]
    model, in order; a NULL total is [None]. *)
Theorem summarize_tool s e c t :
  summarize no_faults s e c (mk_database (Some t)) =
  inr (PList (map summary_dict (summarize_query s e c t))).
Proof.
  unfold summarize. pose proof (run_build_summarize s e c t) as H.
  destruct (build_summarize s e c) as [q ps]. cbn [fst snd] in H.
  rewrite run_statement_eq. cbn [f_connect f_execute no_faults db_expenses].
  rewrite H. cbn [res_bind]. by rewrite summary_result_dicts.
Qed.

Lemma add_then_list_witness :
  table_wf empty_table /\
  add_expense no_faults "2024-01-15" amount_42_50 "Food" None None
    (mk_database (Some empty_table)) =
    (inr (add_expense_reply 1),
     mk_database (Some (mk_table [mk_expense 1 "2024-01-15" amount_42_50 "Food" None None] 1))) /\
  collate_binary "2024-01-01" "2024-01-15" <> Gt /\
  collate_binary "2024-01-15" "2024-01-31" <> Gt /\
  exists out, list_expenses no_faults "2024-01-01" "2024-01-31"
      (mk_database (Some (mk_table [mk_expense 1 "2024-01-15" amount_42_50 "Food" None None] 1)))
      = inr (PList out) /\
    filter (fun p => has_id 1 p = true) out =
      [expense_dict (mk_expense 1 "2024-01-15" amount_42_50 "Food" None None)].
Proof.
  assert (Hwf : table_wf empty_table) by decide_by_eval.
  assert (Hadd : add_expense no_faults "2024-01-15" amount_42_50 "Food" None None
    (mk_database (Some empty_table)) =
    (inr (add_expense_reply 1),
     mk_database (Some (mk_table [mk_expense 1 "2024-01-15" amount_42_50 "Food" None None] 1))))
    by (vm_compute; reflexivity).
  assert (Hs : collate_binary "2024-01-01" "2024-01-15" <> Gt) by (vm_compute; discriminate).
  assert (He : collate_binary "2024-01-15" "2024-01-31" <> Gt) by (vm_compute; discriminate).
  split; [exact Hwf|]. split; [exact Hadd|]. split; [exact Hs|]. split; [exact He|].
  exact (add_then_list _ _ _ _ _ _ _ _ _ _ _ Hwf Hadd Hs He).
Defined.

Lemma add_expense_error_atomic_witness :
  add_expense (mk_faults None None (Some DatabaseLocked)) "2024-02-01" amount_42_50
    "Food" None None (mk_database (Some sample_table)) =
    (inl DatabaseLocked, mk_database (Some sample_table)) /\
  mk_database (Some sample_table) = mk_database (Some sample_table).
Proof.
  assert (H : add_expense (mk_faults None None (Some DatabaseLocked)) "2024-02-01"
    amount_42_50 "Food" None None (mk_database (Some sample_table)) =
    (inl DatabaseLocked, mk_database (Some sample_table))) by reflexivity.
  split; [exact H|]. exact (add_expense_error_atomic _ _ _ _ _ _ _ _ _ H).
Defined.

Definition two_calls : list call_args :=
  [mk_call_args "2024-01-05" (real_of 10 0) "Food" None None;
   mk_call_args "2024-01-06" (real_of 10 0) "Food" None None].

Lemma add_expenses_distinct_witness :
  table_wf empty_table /\
  t_seq empty_table + Z.of_nat (length two_calls) <= max_rowid /\
  Forall (fun c => real_is_nan (a_amount c) = false) two_calls /\
  exists ids zs t',
    add_expenses two_calls (mk_database (Some empty_table)) =
      (inr (map add_expense_reply ids), mk_database (Some t')) /\
    ids = zseq (t_seq empty_table + 1) (length two_calls) /\ NoDup ids /\
    t_rows t' = t_rows empty_table ++ zs /\ map e_id zs = ids /\ table_wf t'.
Proof.
  assert (Hwf : table_wf empty_table) by decide_by_eval.
  assert (Hroom : t_seq empty_table + Z.of_nat (length two_calls) <= max_rowid)
    by (vm_compute; discriminate).
  assert (Hnan : Forall (fun c => real_is_nan (a_amount c) = false) two_calls)
    by (repeat constructor).
  split; [exact Hwf|]. split; [exact Hroom|]. split; [exact Hnan|].
  exact (add_expenses_distinct two_calls empty_table Hwf Hroom Hnan).
Defined.

Lemma list_expenses_tool_witness :
  table_wf sample_table /\
  list_expenses no_faults "2024-01-01" "2024-01-31" (mk_database (Some sample_table)) =
  inr (PList (map expense_dict (select_rows "2024-01-01" "2024-01-31" sample_table))).
Proof.
  assert (Hwf : table_wf sample_table) by decide_by_eval.
  split; [exact Hwf|]. exact (list_expenses_tool _ _ _ Hwf).
Defined.

(** C13: every reply of the three tools that is not an exception has the
    shape of spec section 6: [add_expense] a [{status: str, id: int}],
    [list_expenses] a list of [{id: int, date: str, amount: float,
    category: str, subcategory: Optional[str], note: Optional[str]}],
    [summarize] a list of [{category: str, total_amount: Optional[float],
    count: int}], whatever the faults and on any well-formed database. *)
Theorem tool_replies_typed fl d :
  database_wf d ->
  (forall date amount category sub note p,
     (add_expense fl date amount category sub note d).1 = inr p -> has_type p add_reply_type) /\
  (forall s e p, list_expenses fl s e d = inr p -> has_type p (TyList expense_dict_type)) /\
  (forall s e c p, summarize fl s e c d = inr p -> has_type p (TyList summary_dict_type)).
Proof.
  intros Hwf. split_and!.
  - intros date amount category sub note p H.
    destruct (add_expense fl date amount category sub note d) as [r d'] eqn:E.
    cbn [fst] in H. subst r.
    apply add_expense_inv in E as [[_ [e' ?]]|(_ & id & _ & [= ->])]; [discriminate|].
    unfold add_expense_reply, add_reply_type. eauto 10 with expenses.
  - intros s e p (t & Ht & ->)%list_expenses_inr.
    unfold database_wf in Hwf. rewrite Ht in Hwf. rewrite list_result_wf by done.
    apply has_type_list_map. intros r _. apply expense_dict_typed.
  - intros s e c p (t & _ & ->)%summarize_inr.
    apply has_type_list_map. intros x _. apply summary_dict_typed.
Qed.

Lemma tool_replies_typed_witness :
  database_wf (mk_database (Some sample_table)) /\
  forall s e p, list_expenses no_faults s e (mk_database (Some sample_table)) = inr p ->
    has_type p (TyList expense_dict_type).
Proof.
  assert (Hwf : database_wf (mk_database (Some sample_table))).
  { unfold database_wf. cbn [db_expenses]. decide_by_eval. }
  split; [exact Hwf|].
  exact (proj1 (proj2 (tool_replies_typed no_faults _ Hwf))).
Defined.

(** C34: no data loss across a restart: after [init_db] and any sequence
    of [add_expense] calls, failed or not, running [init_db] again (a
    restart of the server) leaves the database exactly as it is, and
    every row present after the first [init_db] is still stored, in
    front of the rows the calls appended. *)
Theorem restart_keeps_data d d0 calls r d1 :
  init_db None d = inr d0 -> add_expenses calls d0 = (r, d1) ->
  init_db None d1 = inr d1 /\
  exists t0 t1, db_expenses d0 = Some t0 /\ db_expenses d1 = Some t1 /\
    t_rows t0 `prefix_of` t_rows t1.
Proof.
  intros Hinit Hcalls. unfold init_db, create_table_if_not_exists in Hinit.
  assert (Ht0 : exists t0, db_expenses d0 = Some t0)
    by (destruct (db_expenses d) eqn:E; injection Hinit as <-; [rewrite E|]; eauto).
  destruct Ht0 as [t0 Ht0].
  destruct (add_expenses_prefix calls d0 t0 Ht0) as (t1 & Ht1 & Hp). rewrite Hcalls in Ht1.
  split; [|eauto]. unfold init_db, create_table_if_not_exists. cbn [snd] in Ht1.
  by rewrite Ht1.
Qed.

Lemma restart_keeps_data_witness :
  init_db None fresh_database = inr (mk_database (Some empty_table)) /\
  exists r d1, add_expenses two_calls (mk_database (Some empty_table)) = (r, d1) /\
    init_db None d1 = inr d1.
Proof.
  assert (H : init_db None fresh_database = inr (mk_database (Some empty_table))) by reflexivity.
  split; [exact H|].
  destruct (add_expenses two_calls (mk_database (Some empty_table))) as [r d1] eqn:E.
  exists r, d1. split; [reflexivity|].
  exact (proj1 (restart_keeps_data _ _ _ _ _ H E)).
Defined.

(** C14: insert then summarize: after [add_expense] succeeds on a
    well-formed table with a date in the range, the [summarize] row of
    its category counts one more expense, and its [total_amount] is the
    binary64 sum of that category's earlier amounts with the new amount
    added last (SQLite sums in rowid order and the new row has the largest
    rowid), NULL if that is NaN; the rows of every other category are the
    ones [summarize] returned before. *)
Theorem add_then_summarize fl date amount category sub note t id d' s e :
  table_wf t ->
  add_expense fl date amount category sub note (mk_database (Some t)) =
    (inr (add_expense_reply id), d') ->
  collate_binary s date <> Gt -> collate_binary date e <> Gt ->
  let old := filter (has_key e_category category) (matching_rows s e None t) in
  exists t', d' = mk_database (Some t') /\
    (exists x, x ∈ summarize_query s e None t' /\ s_category x = category /\
       s_count x = 1 + count_star old /\
       s_total x = result_double (real_add (fold_left real_add (map e_amount old) real_zero) amount)) /\
    (forall y, y ∈ summarize_query s e None t' -> s_category y <> category ->
       y ∈ summarize_query s e None t).
Proof.
  intros Hwf Hadd Hs He old.
  apply add_expense_success in Hadd as (-> & _ & _ & ->); [|done].
  set (r := mk_expense (t_seq t + 1) date amount category sub note).
  assert (Hr : in_range s e r) by (by apply in_range_iff).
  eexists. split; [reflexivity|]. split.
  - exact (summarize_snoc_row s e t (t_seq t + 1) r Hr).
  - intros y Hy Hne. exact (summarize_snoc_other s e t _ r y Hr Hy Hne).
Qed.

Lemma add_then_summarize_witness :
  table_wf food_travel_table /\
  collate_binary "2024-01-01" "2024-01-20" <> Gt /\ collate_binary "2024-01-20" "2024-01-31" <> Gt /\
  exists t', (add_expense no_faults "2024-01-20" (real_of 12 0) "Food" None None
                (mk_database (Some food_travel_table))).2 = mk_database (Some t') /\
    exists x, x ∈ summarize_query "2024-01-01" "2024-01-31" None t' /\ s_category x = "Food" /\
      s_count x = 3 /\ s_total x = Some (real_of 42 0).
Proof.
  assert (Hwf : table_wf food_travel_table) by decide_by_eval.
  assert (Hadd : add_expense no_faults "2024-01-20" (real_of 12 0) "Food" None None
                   (mk_database (Some food_travel_table)) =
                 (inr (add_expense_reply 4),
                  (add_expense no_faults "2024-01-20" (real_of 12 0) "Food" None None
                     (mk_database (Some food_travel_table))).2))
    by (vm_compute; reflexivity).
  assert (Hs : collate_binary "2024-01-01" "2024-01-20" <> Gt) by (vm_compute; discriminate).
  assert (He : collate_binary "2024-01-20" "2024-01-31" <> Gt) by (vm_compute; discriminate).
  split; [exact Hwf|]. split; [exact Hs|]. split; [exact He|].
  destruct (add_then_summarize _ _ _ _ _ _ _ _ _ _ _ Hwf Hadd Hs He)
    as (t' & Ht' & (x & Hx & Hcat & Hcount & Htotal) & _).
  exists t'. split; [exact Ht'|]. exists x. split_and!; [exact Hx|exact Hcat| |].
  - rewrite Hcount. vm_compute. reflexivity.
  - rewrite Htotal. vm_compute. reflexivity.
Defined.

End Tools.
