(* ===== verification/Concurrency.v ===== *)
(** Concurrent tool calls.  FastMCP may run several tool calls at once;
    each has its own connection ([async with aiosqlite.connect]), so the
    calls share only the database file, and SQLite lets one connection at
    a time hold the write lock.  A call of [add_expense] executes its
    INSERT inside the implicit transaction, which takes the write lock,
    and releases it at the commit (or, if the commit fails, at the
    rollback when the connection closes); a call that finds the lock
    taken waits for the busy timeout and fails with [database is locked].
    A read holds a shared lock from its [execute] to the end of its
    [fetchall] and reads the committed database; the commit needs the
    exclusive lock, so it waits while any reader holds a shared lock.  The world holds the committed
    database, the owner of the write lock and the phase of every call;
    [step] is one atomic action of one call.  The theorems: the fine
    steps of one call run back to back are [Tools.add_expense]; every
    reachable world keeps the invariants; the ids replied to distinct
    calls are distinct and committed; a read sees one committed state;
    the serial schedule makes every call succeed; and every run ends. *)
From S2P Require Import Prelude Sql PyValue Schema Store Query Summary QueryBuilder Tools.
Import Sql Py Schema Store Query Tools.

Module Concurrency.
Local Open Scope Z_scope.

Inductive request : Type :=
  | ReqAdd (a : call_args)
  | ReqList (start_date end_date : text)
  | ReqSummarize (start_date end_date : text) (category : option text).

Inductive phase : Type :=
  | Pending                                  (** not started *)
  | InTxn (id : Z) (t' : table)              (** INSERT done, write lock held *)
  | Reading (snap : database)                (** SELECT started, shared lock held *)
  | Replied (r : res storage_error pyval).   (** returned to FastMCP *)

Record world : Type := mk_world {
  w_db : database;
  w_lock : option nat;
  w_calls : list (request * phase);
}.

Definition set_phase (w : world) (i : nat) (req : request) (ph : phase)
    (db : database) (lock : option nat) : world :=
  mk_world db lock (<[i := (req, ph)]> (w_calls w)).

(** The read tools; what they return on a database. *)
Definition is_read (req : request) : bool :=
  match req with ReqAdd _ => false | _ => true end.

Definition read_reply (req : request) (d : database) : res storage_error pyval :=
  match req with
  | ReqList s e => list_expenses no_faults s e d
  | ReqSummarize s e c => summarize no_faults s e c d
  | ReqAdd _ => inl IOError
  end.

(** No connection holds a shared lock.  The commit needs the exclusive
    lock, which SQLite grants (in its default rollback-journal mode) only
    when no reader holds a shared lock; until then the writer waits, and
    fails with [database is locked] at the busy timeout. *)
Definition is_reading (c : request * phase) : bool :=
  match c.2 with Reading _ => true | _ => false end.

Definition no_readers (calls : list (request * phase)) : Prop :=
  Forall (fun c => is_reading c = false) calls.

Inductive step : world -> world -> Prop :=
  (** the INSERT of call [i] runs on the committed table and takes the lock *)
  | step_insert w i a t id t' :
      w_calls w !! i = Some (ReqAdd a, Pending) -> w_lock w = None ->
      db_expenses (w_db w) = Some t ->
      insert_row (a_date a) (a_amount a) (a_category a) (a_subcategory a) (a_note a) t
        = inr (id, t') ->
      step w (set_phase w i (ReqAdd a) (InTxn id t') (w_db w) (Some i))
  (** the INSERT fails (constraint, full table, no table): nothing changes *)
  | step_insert_error w i a e :
      w_calls w !! i = Some (ReqAdd a, Pending) -> w_lock w = None ->
      Store.insert (a_date a) (a_amount a) (a_category a) (a_subcategory a) (a_note a)
        (w_db w) = inl e ->
      step w (set_phase w i (ReqAdd a) (Replied (inl e)) (w_db w) None)
  (** another connection holds the lock until the busy timeout *)
  | step_busy w i j a :
      w_calls w !! i = Some (ReqAdd a, Pending) -> w_lock w = Some j ->
      step w (set_phase w i (ReqAdd a) (Replied (inl DatabaseLocked)) (w_db w) (Some j))
  (** the commit publishes the new table and releases the lock *)
  | step_commit w i a id t' :
      w_calls w !! i = Some (ReqAdd a, InTxn id t') -> w_lock w = Some i ->
      no_readers (w_calls w) ->
      step w (set_phase w i (ReqAdd a) (Replied (inr (add_expense_reply id)))
                (mk_database (Some t')) None)
  (** the commit fails: the connection closes and the insert is rolled back *)
  | step_commit_fail w i a id t' e :
      w_calls w !! i = Some (ReqAdd a, InTxn id t') -> w_lock w = Some i ->
      step w (set_phase w i (ReqAdd a) (Replied (inl e)) (w_db w) None)
  (** [cur = await db.execute(SELECT ...)]: the first step of the
      statement takes a shared lock and reads the committed database *)
  | step_read_start w i req :
      w_calls w !! i = Some (req, Pending) -> is_read req = true ->
      step w (set_phase w i req (Reading (w_db w)) (w_db w) (w_lock w))
  (** [await cur.fetchall()]: the rows of the snapshot, turned into
      dicts; the statement ends and releases the shared lock *)
  | step_read_end w i req d :
      w_calls w !! i = Some (req, Reading d) ->
      step w (set_phase w i req (Replied (read_reply req d)) (w_db w) (w_lock w))
  (** reading fails (I/O error): the call raises *)
  | step_read_fail w i req d e :
      w_calls w !! i = Some (req, Reading d) ->
      step w (set_phase w i req (Replied (inl e)) (w_db w) (w_lock w))
  (** the connection cannot be opened *)
  | step_connect_fail w i req e :
      w_calls w !! i = Some (req, Pending) ->
      step w (set_phase w i req (Replied (inl e)) (w_db w) (w_lock w)).

(** The world in which [calls] are submitted to a database whose table
    exists and that no connection writes. *)
Definition initial_world (t : table) (calls : list request) : world :=
  mk_world (mk_database (Some t)) None ((fun r => (r, Pending)) <$> calls).

(** The id an [add_expense] call replied with, if it succeeded. *)
Definition replied_id (c : request * phase) : option Z :=
  match c with
  | (ReqAdd _, Replied (inr (PDict [_; (_, PInt id)]))) => Some id
  | _ => None
  end.

(** ** The invariant of the concurrent system: the table exists and is
    well formed; a call in its transaction holds the lock and its
    uncommitted table is the INSERT applied to the committed one; the lock
    is held only by such a call; every id replied to a call is committed;
    two calls never get the same id. *)
Definition world_inv (w : world) : Prop :=
  exists t, db_expenses (w_db w) = Some t /\ table_wf t /\
  (forall i a id t', w_calls w !! i = Some (ReqAdd a, InTxn id t') ->
     w_lock w = Some i /\
     insert_row (a_date a) (a_amount a) (a_category a) (a_subcategory a) (a_note a) t
       = inr (id, t')) /\
  (forall i, w_lock w = Some i ->
     exists a id t', w_calls w !! i = Some (ReqAdd a, InTxn id t')) /\
  (forall i c id, w_calls w !! i = Some c -> replied_id c = Some id ->
     id ∈ row_ids (t_rows t)) /\
  (forall i j ci cj id, i <> j -> w_calls w !! i = Some ci -> w_calls w !! j = Some cj ->
     replied_id ci = Some id -> replied_id cj <> Some id).

Definition replies_committed (calls : list (request * phase)) (t : table) : Prop :=
  forall i c id, calls !! i = Some c -> replied_id c = Some id -> id ∈ row_ids (t_rows t).

Definition replies_distinct (calls : list (request * phase)) : Prop :=
  forall i j ci cj id, i <> j -> calls !! i = Some ci -> calls !! j = Some cj ->
    replied_id ci = Some id -> replied_id cj <> Some id.

Definition world_inv' (w : world) (t : table) : Prop :=
  db_expenses (w_db w) = Some t /\ table_wf t /\
  (forall i a id t', w_calls w !! i = Some (ReqAdd a, InTxn id t') ->
     w_lock w = Some i /\
     insert_row (a_date a) (a_amount a) (a_category a) (a_subcategory a) (a_note a) t
       = inr (id, t')) /\
  (forall i, w_lock w = Some i ->
     exists a id t', w_calls w !! i = Some (ReqAdd a, InTxn id t')) /\
  replies_committed (w_calls w) t /\ replies_distinct (w_calls w).

(** The phase of a call of [add_expense] that committed with [id]. *)
Definition add_done (a : call_args) (id : Z) : request * phase :=
  (ReqAdd a, Replied (inr (add_expense_reply id))).

(** ** The sequential reference: each request handled to completion, in
    order, by the handler of [Tools]; the calls with their replies and
    the final database. *)
Definition handle (req : request) (d : database) : res storage_error pyval * database :=
  match req with
  | ReqAdd a => add_expense no_faults (a_date a) (a_amount a) (a_category a)
                  (a_subcategory a) (a_note a) d
  | ReqList s e => (list_expenses no_faults s e d, d)
  | ReqSummarize s e c => (summarize no_faults s e c d, d)
  end.

Fixpoint serve (reqs : list request) (d : database) : list (request * phase) * database :=
  match reqs with
  | [] => ([], d)
  | req :: rs =>
      let '(r, d1) := handle req d in
      let '(out, d2) := serve rs d1 in
      ((req, Replied r) :: out, d2)
  end.

(** ** The snapshot of a read in progress is the committed database. *)
Definition snap_inv (w : world) : Prop :=
  forall i req d, w_calls w !! i = Some (req, Reading d) -> d = w_db w.

(** ** Where the committed rows come from: a row is [committed_by] the
    calls when one of them is an [add_expense] that replied success with
    the row's id and whose arguments the row stores. *)
Definition committed_by (calls : list (request * phase)) (r : expense) : Prop :=
  exists i a, calls !! i = Some (add_done a (e_id r)) /\
    r = mk_expense (e_id r) (a_date a) (a_amount a) (a_category a) (a_subcategory a) (a_note a).

Definition origin_inv (rows0 : list expense) (w : world) : Prop :=
  exists t zs, db_expenses (w_db w) = Some t /\ t_rows t = rows0 ++ zs /\
    Forall (committed_by (w_calls w)) zs.

(** ** Termination measure: the steps a call has left ([Pending]: its
    statement and, for an insert, its commit; [InTxn]: the commit). *)
Definition call_work (c : request * phase) : nat :=
  match c.2 with Pending => 2 | InTxn _ _ => 1 | Reading _ => 1 | Replied _ => 0 end.

Definition work (w : world) : nat := sum_list (call_work <$> w_calls w).

(** ** Sample schedule: an [add_expense] call and a [list_expenses] call
    submitted together on the one-row table of [Store]. *)
Definition call_food : call_args :=
  mk_call_args "2024-02-01" amount_42_50 "Food" None None.

Definition call_travel : call_args :=
  mk_call_args "2024-02-03" amount_42_50 "Travel" (Some "train") None.

Definition txn_table : table :=
  mk_table (t_rows sample_table ++ [mk_expense 2 "2024-02-01" amount_42_50 "Food" None None]) 2.

Definition sample_world : world :=
  initial_world sample_table [ReqAdd call_food; ReqList "2024-01-01" "2024-12-31"].

Definition txn_world : world :=
  set_phase sample_world 0 (ReqAdd call_food) (InTxn 2 txn_table) (w_db sample_world) (Some 0%nat).

Definition read_world : world :=
  set_phase sample_world 1 (ReqList "2024-01-01" "2024-12-31") (Reading (w_db sample_world))
    (w_db sample_world) (w_lock sample_world).

Definition done_world : world :=
  set_phase txn_world 0 (ReqAdd call_food) (Replied (inr (add_expense_reply 2)))
    (mk_database (Some txn_table)) None.

(** ** Lemmas *)
Lemma lookup_set_phase_same w i req ph db lock c0 :
  w_calls w !! i = Some c0 ->
  w_calls (set_phase w i req ph db lock) !! i = Some (req, ph).
Proof.
  intros Hi. unfold set_phase. simpl.
  apply list_lookup_insert_eq. eapply lookup_lt_Some; eauto.
Qed.

Lemma row_ids_le t i :
  table_wf t -> i ∈ row_ids (t_rows t) -> i <= t_seq t.
Proof.
  intros (_ & Hids & _) Hi. unfold row_ids in Hi.
  apply list_elem_of_In, in_map_iff in Hi as (r & <- & Hr).
  rewrite Forall_forall in Hids. apply list_elem_of_In in Hr. apply Hids in Hr. lia.
Qed.

Lemma row_ids_snoc rows r : row_ids (rows ++ [r]) = row_ids rows ++ [e_id r].
Proof. unfold row_ids. by rewrite map_app. Qed.

Ltac set_phase_cases Hi H :=
  unfold set_phase in H; cbn [w_calls] in H;
  destruct (list_insert_lookup_cases _ _ _ _ _ _ Hi H) as [[-> ?]|[? ?]].

(** Changing the phase of a call to one without a replied id keeps the
    replied ids committed and distinct. *)
Lemma replies_set_phase_none w i req ph db lock c0 t :
  w_calls w !! i = Some c0 -> replied_id (req, ph) = None ->
  replies_committed (w_calls w) t -> replies_distinct (w_calls w) ->
  replies_committed (w_calls (set_phase w i req ph db lock)) t /\
  replies_distinct (w_calls (set_phase w i req ph db lock)).
Proof.
  intros Hi Hnone Hrep Hdist. split.
  - intros j c id Hj Hid. set_phase_cases Hi Hj; [congruence|eauto].
  - intros j1 j2 c1 c2 id Hne Hj1 Hj2 Hid1 Hid2.
    set_phase_cases Hi Hj1; [congruence|]. set_phase_cases Hi Hj2; [congruence|].
    eapply (Hdist j1 j2); eauto.
Qed.

Lemma world_inv_unfold w : world_inv w <-> exists t, world_inv' w t.
Proof. reflexivity. Qed.

(** A call outside any transaction moves to another phase outside a
    transaction and without a replied id; the database and the lock stay. *)
Lemma inv_set_phase_plain w i req ph0 ph :
  world_inv w -> w_calls w !! i = Some (req, ph0) ->
  (forall id t', ph0 <> InTxn id t') -> (forall id t', ph <> InTxn id t') ->
  replied_id (req, ph) = None ->
  world_inv (set_phase w i req ph (w_db w) (w_lock w)).
Proof.
  intros (t & Hdb & Hwf & Htx & Hlock & Hrep & Hdist) Hi H0 Hph Hnone.
  destruct (replies_set_phase_none w i req ph (w_db w) (w_lock w) _ t Hi Hnone Hrep Hdist)
    as [Hrep' Hdist'].
  exists t. split_and!; try done.
  - intros j a id t' Hj. set_phase_cases Hi Hj; [simplify_eq; by edestruct Hph|]. by apply Htx.
  - intros j Hl. destruct (Hlock j Hl) as (a & id & t' & Hj).
    destruct (decide (j = i)) as [->|Hne]; [rewrite Hi in Hj; simplify_eq; by edestruct H0|].
    exists a, id, t'. unfold set_phase. simpl. by rewrite list_lookup_insert_ne.
Qed.

(** The call holding the lock fails at its commit: rolled back, unlocked. *)
Lemma inv_rollback w i a id t' e :
  world_inv w -> w_calls w !! i = Some (ReqAdd a, InTxn id t') -> w_lock w = Some i ->
  world_inv (set_phase w i (ReqAdd a) (Replied (inl e)) (w_db w) None).
Proof.
  intros (t & Hdb & Hwf & Htx & Hlock & Hrep & Hdist) Hi Hl.
  destruct (replies_set_phase_none w i (ReqAdd a) (Replied (inl e)) (w_db w) None _ t Hi
              eq_refl Hrep Hdist) as [Hrep' Hdist'].
  exists t. split_and!; try done.
  - intros j a' id' t'' Hj. set_phase_cases Hi Hj; [congruence|].
    destruct (Htx j a' id' t'' H0) as [Hl' _]. congruence.
Qed.

(** A pending insert runs on the committed table and takes the lock. *)
Lemma inv_insert w i a t id t' :
  world_inv w -> w_calls w !! i = Some (ReqAdd a, Pending) -> w_lock w = None ->
  db_expenses (w_db w) = Some t ->
  insert_row (a_date a) (a_amount a) (a_category a) (a_subcategory a) (a_note a) t
    = inr (id, t') ->
  world_inv (set_phase w i (ReqAdd a) (InTxn id t') (w_db w) (Some i)).
Proof.
  intros (t0 & Hdb & Hwf & Htx & Hlock & Hrep & Hdist) Hi Hl Ht Hins.
  rewrite Hdb in Ht. injection Ht as <-.
  destruct (replies_set_phase_none w i (ReqAdd a) (InTxn id t') (w_db w) (Some i) _ t0 Hi
              eq_refl Hrep Hdist) as [Hrep' Hdist'].
  exists t0. split_and!; try done.
  - intros j a' id' t'' Hj. set_phase_cases Hi Hj.
    + by simplify_eq.
    + destruct (Htx j a' id' t'' H0) as [Hl' _]. congruence.
  - intros j [= <-]. exists a, id, t'. by eapply lookup_set_phase_same.
Qed.

Lemma replied_id_reply a id : replied_id (ReqAdd a, Replied (inr (add_expense_reply id))) = Some id.
Proof. reflexivity. Qed.

(** The commit publishes the transaction's table: the new id is the next
    rowid, larger than every id already replied. *)
Lemma inv_commit w i a id t' :
  world_inv w -> w_calls w !! i = Some (ReqAdd a, InTxn id t') -> w_lock w = Some i ->
  world_inv (set_phase w i (ReqAdd a) (Replied (inr (add_expense_reply id)))
               (mk_database (Some t')) None).
Proof.
  intros (t & Hdb & Hwf & Htx & Hlock & Hrep & Hdist) Hi Hl.
  destruct (Htx i a id t' Hi) as [_ Hins].
  apply insert_row_result in Hins as (-> & Hlt & Hnan & ->); [|done].
  eexists. split_and!; [reflexivity|by apply table_wf_snoc| | | |].
  - intros j a' id' t'' Hj. set_phase_cases Hi Hj; [congruence|].
    destruct (Htx j a' id' t'' H0) as [Hl' _]. congruence.
  - by intros j [=].
  - intros j c id' Hj Hid. cbn [t_rows]. rewrite row_ids_snoc.
    set_phase_cases Hi Hj.
    + subst c. rewrite replied_id_reply in Hid. injection Hid as <-. set_solver.
    + apply elem_of_app. left. eauto.
  - intros j1 j2 c1 c2 id' Hne Hj1 Hj2 Hid1 Hid2.
    set_phase_cases Hi Hj1; set_phase_cases Hi Hj2; subst.
    + done.
    + rewrite replied_id_reply in Hid1. injection Hid1 as <-.
      pose proof (row_ids_le t _ Hwf (Hrep _ _ _ H1 Hid2)). lia.
    + rewrite replied_id_reply in Hid2. injection Hid2 as <-.
      pose proof (row_ids_le t _ Hwf (Hrep _ _ _ H0 Hid1)). lia.
    + by apply (Hdist j1 j2 c1 c2 id').
Qed.

Lemma inv_step w w' : world_inv w -> step w w' -> world_inv w'.
Proof.
  intros Hinv Hs. destruct Hs.
  - by eapply inv_insert.
  - rewrite <- H0. by eapply inv_set_phase_plain.
  - rewrite <- H0. by eapply inv_set_phase_plain.
  - by apply inv_commit.
  - by eapply inv_rollback.
  - eapply inv_set_phase_plain; [done|done|done|done|]. by destruct req.
  - eapply inv_set_phase_plain; [done|done|done|done|]. by destruct req.
  - eapply inv_set_phase_plain; [done|done|done|done|]. by destruct req.
  - eapply inv_set_phase_plain; [done|done|done|done|]. by destruct req.
Qed.

Lemma inv_rtc w w' : world_inv w -> rtc step w w' -> world_inv w'.
Proof. intros Hinv Hr. induction Hr; eauto using inv_step. Qed.

Lemma inv_initial t calls : table_wf t -> world_inv (initial_world t calls).
Proof.
  intros Hwf. exists t. unfold initial_world. cbn [w_db w_lock w_calls db_expenses].
  refine (conj eq_refl (conj Hwf (conj _ (conj _ (conj _ _))))).
  - intros i a id t' Hi. apply list_lookup_fmap_Some in Hi as (r & [=] & _).
  - by intros i [=].
  - intros i c id Hi Hid. apply list_lookup_fmap_Some in Hi as (r & -> & _). by destruct r.
  - intros i j ci cj id _ Hi _ Hid. apply list_lookup_fmap_Some in Hi as (r & -> & _).
    by destruct r.
Qed.

Lemma no_readers_insert calls i req ph :
  no_readers calls -> is_reading (req, ph) = false -> no_readers (<[i := (req, ph)]> calls).
Proof. intros H Hph. by apply Forall_insert. Qed.

Lemma no_readers_app_pending pre args :
  no_readers pre -> no_readers (pre ++ ((fun a => (ReqAdd a, Pending)) <$> args)).
Proof. intros H. apply Forall_app. split; [done|]. apply Forall_fmap, Forall_true. done. Qed.

(** The serial schedule: every pending [add_expense] call after [pre]
    runs its INSERT and its commit before the next one starts; each gets
    the next rowid. *)
Lemma serial_run args pre t :
  no_readers pre -> table_wf t -> t_seq t + Z.of_nat (length args) <= max_rowid ->
  Forall (fun a => real_is_nan (a_amount a) = false) args ->
  exists t', table_wf t' /\
    rtc step (mk_world (mk_database (Some t)) None
                (pre ++ ((fun a => (ReqAdd a, Pending)) <$> args)))
             (mk_world (mk_database (Some t')) None
                (pre ++ zip_with add_done args (zseq (t_seq t + 1) (length args)))).
Proof.
  revert pre t. induction args as [|a args IH]; intros pre t Hpre Hwf Hroom Hnan.
  { exists t. split; [done|]. apply rtc_refl. }
  apply Forall_cons in Hnan as [Ha Hnan]. cbn [length] in Hroom.
  set (row := mk_expense (t_seq t + 1) (a_date a) (a_amount a) (a_category a)
                (a_subcategory a) (a_note a)).
  set (t1 := mk_table (t_rows t ++ [row]) (t_seq t + 1)).
  assert (Hins : insert_row (a_date a) (a_amount a) (a_category a) (a_subcategory a)
                   (a_note a) t = inr (t_seq t + 1, t1))
    by (rewrite insert_row_eq by (done || lia); by rewrite Ha).
  assert (Hwf1 : table_wf t1) by (apply table_wf_snoc; (done || lia)).
  assert (Hpre' : no_readers (pre ++ [add_done a (t_seq t + 1)]))
    by (apply Forall_app; split; [done|by repeat constructor]).
  destruct (IH (pre ++ [add_done a (t_seq t + 1)]) t1 Hpre' Hwf1 ltac:(simpl; lia) Hnan)
    as (t' & Hwf' & Hrun).
  exists t'. split; [done|].
  assert (Hi : (pre ++ ((fun a => (ReqAdd a, Pending)) <$> a :: args)) !! length pre
               = Some (ReqAdd a, Pending)).
  { by apply list_lookup_middle. }
  eapply rtc_l; [eapply (step_insert _ (length pre) a t); [exact Hi|done|done|exact Hins]|].
  eapply rtc_l; [eapply step_commit; [eapply lookup_set_phase_same, Hi|done|]|].
  { apply no_readers_insert; [|done]. by apply no_readers_app_pending. }
  unfold set_phase. cbn [w_calls]. rewrite list_insert_insert_eq.
  rewrite insert_app_r_alt, Nat.sub_diag by lia.
  rewrite <- !app_assoc in Hrun. exact Hrun.
Qed.

(** A step changes the phase of one call to a later one. *)
Lemma work_set_phase w i req ph db lock c0 :
  w_calls w !! i = Some c0 -> (call_work (req, ph) < call_work c0)%nat ->
  (work (set_phase w i req ph db lock) < work w)%nat.
Proof.
  intros Hi Hlt. unfold work, set_phase. cbn [w_calls].
  rewrite list_fmap_insert.
  pose proof (sum_list_insert (call_work <$> w_calls w) i (call_work (req, ph)) (call_work c0)
                ltac:(by rewrite list_lookup_fmap, Hi)).
  lia.
Qed.

Lemma step_work w w' : step w w' -> (work w' < work w)%nat.
Proof. intros Hs. destruct Hs; (eapply work_set_phase; [eassumption|]). all: unfold call_work; simpl; lia. Qed.

Lemma nsteps_work n w w' : nsteps step n w w' -> (n + work w' <= work w)%nat.
Proof. induction 1 as [|n w1 w2 w3 Hs _ IH]; [lia|]. pose proof (step_work _ _ Hs). lia. Qed.

Lemma work_initial t calls : work (initial_world t calls) = (2 * length calls)%nat.
Proof.
  unfold work, initial_world. cbn [w_calls].
  induction calls as [|c cs IH]; [done|]. cbn [fmap list_fmap sum_list length] in *.
  unfold call_work at 1. simpl. lia.
Qed.

(** [list_expenses] without faults returns dicts of committed rows. *)
Lemma list_expenses_rows s e d t ds :
  db_expenses d = Some t -> table_wf t ->
  list_expenses no_faults s e d = inr (PList ds) ->
  Forall (fun p => exists r, r ∈ t_rows t /\ p = expense_dict r) ds.
Proof.
  intros Hdb Hwf. unfold list_expenses. rewrite run_statement_eq. simpl. rewrite Hdb.
  intros [= <-]. rewrite list_result_wf by done.
  apply Forall_forall. intros p (r & -> & Hr)%list_elem_of_fmap.
  exists r. split; [|done]. rewrite select_rows_perm in Hr.
  by apply list_elem_of_filter in Hr as [_ Hr].
Qed.

Lemma row_ids_elem r rows : r ∈ rows -> e_id r ∈ row_ids rows.
Proof. intros Hr. unfold row_ids. by apply list_elem_of_fmap_2. Qed.

Lemma sample_table_wf : table_wf sample_table.
Proof. decide_by_eval. Qed.

Lemma sample_insert_step : step sample_world txn_world.
Proof.
  unfold txn_world. eapply (step_insert _ 0 call_food sample_table);
    [reflexivity|reflexivity|reflexivity|vm_compute; reflexivity].
Qed.

Lemma sample_commit_step : step txn_world done_world.
Proof. unfold done_world. eapply step_commit; [reflexivity|reflexivity|by repeat constructor]. Qed.

Lemma sample_run : rtc step sample_world done_world.
Proof. eapply rtc_l; [apply sample_insert_step|]. apply rtc_once, sample_commit_step. Qed.

Lemma no_readers_lookup calls j req d :
  no_readers calls -> calls !! j = Some (req, Reading d) -> False.
Proof. intros H Hj. by pose proof (Forall_lookup_1 _ _ _ _ H Hj). Qed.

(** While a read is in progress nothing is committed; a read starts on
    the committed database. *)
Lemma snap_step w w' : snap_inv w -> step w w' -> snap_inv w'.
Proof.
  intros Hs Hst. destruct Hst; intros k req' d' Hj; unfold set_phase in Hj;
    cbn [w_calls w_db] in Hj |- *;
    destruct (list_insert_lookup_cases _ _ _ _ _ _ H Hj) as [[-> Heq]|[Hne Hj']];
    simplify_eq; eauto.
  exfalso. eauto using no_readers_lookup.
Qed.

Lemma snap_rtc w w' : snap_inv w -> rtc step w w' -> snap_inv w'.
Proof. intros Hs Hr. induction Hr; eauto using snap_step. Qed.

Lemma snap_initial t calls : snap_inv (initial_world t calls).
Proof. intros i req d Hi. apply list_lookup_fmap_Some in Hi as (r & [=] & _). Qed.

(** No step changes the committed database while a read is in progress. *)
Lemma step_db_reading w w' i req d :
  w_calls w !! i = Some (req, Reading d) -> step w w' -> w_db w' = w_db w.
Proof. intros Hi Hst. destruct Hst; try done. exfalso. eauto using no_readers_lookup. Qed.

Lemma sample_read_step : step sample_world read_world.
Proof. unfold read_world. by eapply step_read_start. Qed.

(** The steps of one [add_expense] call run back to back. *)
Lemma add_expense_run_steps w i a r d' :
  w_calls w !! i = Some (ReqAdd a, Pending) -> w_lock w = None -> no_readers (w_calls w) ->
  add_expense no_faults (a_date a) (a_amount a) (a_category a) (a_subcategory a) (a_note a)
    (w_db w) = (r, d') ->
  exists w', rtc step w w' /\ w_db w' = d' /\ w_lock w' = None /\
    w_calls w' = <[i := (ReqAdd a, Replied r)]> (w_calls w).
Proof.
  intros Hi Hl Hnr. rewrite add_expense_no_faults.
  destruct (Store.insert _ _ _ _ _ (w_db w)) as [e|[id d'']] eqn:Hins; intros [= <- <-].
  - eexists. split; [apply rtc_once; by apply step_insert_error|]. done.
  - apply insert_inv in Hins as (t & t' & Ht & Hrow & ->).
    eexists. split.
    + eapply rtc_l; [by eapply step_insert|]. apply rtc_once.
      eapply step_commit; [eapply lookup_set_phase_same, Hi|done|].
      by apply no_readers_insert.
    + unfold set_phase. cbn [w_db w_lock w_calls]. by rewrite list_insert_insert_eq.
Qed.

Lemma no_readers_app_requests pre reqs :
  no_readers pre -> no_readers (pre ++ ((fun r => (r, Pending)) <$> reqs)).
Proof. intros H. apply Forall_app. split; [done|]. apply Forall_fmap, Forall_true. done. Qed.

(** One request run to completion by its own steps, the others idle. *)
Lemma one_request_steps w i req r d1 :
  w_calls w !! i = Some (req, Pending) -> w_lock w = None -> no_readers (w_calls w) ->
  handle req (w_db w) = (r, d1) ->
  rtc step w (mk_world d1 None (<[i := (req, Replied r)]> (w_calls w))).
Proof.
  intros Hi Hl Hnr Hh. destruct req as [a|s e|s e c]; cbn [handle] in Hh.
  - destruct (add_expense_run_steps w i a r d1 Hi Hl Hnr Hh) as ([db l c] & Hr & Hdb & Hl' & Hc).
    cbn in Hdb, Hl', Hc. by subst.
  - injection Hh as <- <-.
    assert (Hr : rtc step w (set_phase (set_phase w i (ReqList s e) (Reading (w_db w)) (w_db w) (w_lock w))
                   i (ReqList s e) (Replied (read_reply (ReqList s e) (w_db w))) (w_db w) (w_lock w))).
    { eapply rtc_l; [by apply step_read_start|]. apply rtc_once.
      apply (step_read_end (set_phase w i (ReqList s e) (Reading (w_db w)) (w_db w) (w_lock w))).
      by eapply lookup_set_phase_same. }
    unfold set_phase in Hr. cbn [w_calls w_db w_lock] in Hr.
    rewrite list_insert_insert_eq, Hl in Hr. exact Hr.
  - injection Hh as <- <-.
    assert (Hr : rtc step w (set_phase (set_phase w i (ReqSummarize s e c) (Reading (w_db w)) (w_db w)
                   (w_lock w)) i (ReqSummarize s e c)
                   (Replied (read_reply (ReqSummarize s e c) (w_db w))) (w_db w) (w_lock w))).
    { eapply rtc_l; [by apply step_read_start|]. apply rtc_once.
      apply (step_read_end (set_phase w i (ReqSummarize s e c) (Reading (w_db w)) (w_db w) (w_lock w))).
      by eapply lookup_set_phase_same. }
    unfold set_phase in Hr. cbn [w_calls w_db w_lock] in Hr.
    rewrite list_insert_insert_eq, Hl in Hr. exact Hr.
Qed.

(** The serial schedule of the requests after [pre] computes [serve]. *)
Lemma serial_serve reqs pre d :
  no_readers pre ->
  rtc step (mk_world d None (pre ++ ((fun r => (r, Pending)) <$> reqs)))
           (mk_world (serve reqs d).2 None (pre ++ (serve reqs d).1)).
Proof.
  revert pre d. induction reqs as [|req rs IH]; intros pre d Hpre; [apply rtc_refl|].
  cbn [serve]. destruct (handle req d) as [r d1] eqn:Hh.
  pose proof (IH (pre ++ [(req, Replied r)]) d1 ltac:(apply Forall_app; by split; [|repeat constructor]))
    as Hrun.
  destruct (serve rs d1) as [out d2]. cbn [fst snd] in *. rewrite <- !app_assoc in Hrun.
  eapply rtc_trans; [|exact Hrun].
  pose proof (one_request_steps (mk_world d None (pre ++ ((fun r => (r, Pending)) <$> req :: rs)))
                (length pre) req r d1 ltac:(cbn [w_calls]; rewrite fmap_cons; by apply list_lookup_middle) eq_refl
                ltac:(cbn [w_calls]; by apply no_readers_app_requests) Hh) as Hone.
  cbn [w_calls] in Hone. rewrite insert_app_r_alt, Nat.sub_diag in Hone by lia. exact Hone.
Qed.

(** A call that has not replied success can change phase without
    losing the attribution of a committed row. *)
Lemma committed_by_set_phase w i req ph0 ph db lock r :
  w_calls w !! i = Some (req, ph0) -> (forall a id, (req, ph0) <> add_done a id) ->
  committed_by (w_calls w) r -> committed_by (w_calls (set_phase w i req ph db lock)) r.
Proof.
  intros Hi Hnd (j & a & Hj & Hr). exists j, a. split; [|done].
  unfold set_phase. cbn [w_calls]. rewrite list_lookup_insert_ne; [done|].
  intros ->. rewrite Hi in Hj. apply (Hnd a (e_id r)). congruence.
Qed.

Lemma origin_set_phase_db rows0 w i req ph0 ph lock :
  origin_inv rows0 w -> w_calls w !! i = Some (req, ph0) ->
  (forall a id, (req, ph0) <> add_done a id) ->
  origin_inv rows0 (set_phase w i req ph (w_db w) lock).
Proof.
  intros (t & zs & Hdb & Hrows & Hzs) Hi Hnd. exists t, zs. split_and!; [done|done|].
  eapply Forall_impl; [exact Hzs|]. intros r. by eapply committed_by_set_phase.
Qed.

(** The commit appends the row of the committing call, which now replies
    success with its id. *)
Lemma origin_commit rows0 w i a id t' :
  world_inv w -> origin_inv rows0 w ->
  w_calls w !! i = Some (ReqAdd a, InTxn id t') ->
  origin_inv rows0 (set_phase w i (ReqAdd a) (Replied (inr (add_expense_reply id)))
                      (mk_database (Some t')) None).
Proof.
  intros (t & Hdb & Hwf & Htx & _) (t0 & zs & Hdb0 & Hrows & Hzs) Hi.
  rewrite Hdb in Hdb0. injection Hdb0 as <-.
  destruct (Htx i a id t' Hi) as [_ Hins].
  apply insert_row_result in Hins as (-> & _ & _ & ->); [|done].
  eexists _, (zs ++ _). split_and!; [reflexivity|cbn [t_rows]; by rewrite Hrows, app_assoc|].
  apply Forall_app. split.
  - eapply Forall_impl; [exact Hzs|]. intros r.
    eapply committed_by_set_phase; [exact Hi|by unfold add_done; intros ?? [=]].
  - apply Forall_singleton. exists i, a. split; [|done]. by eapply lookup_set_phase_same.
Qed.

Lemma origin_step rows0 w w' : world_inv w -> origin_inv rows0 w -> step w w' -> origin_inv rows0 w'.
Proof.
  intros Hinv Ho Hs. destruct Hs; try by eapply origin_commit.
  all: eapply origin_set_phase_db; [done|done|by unfold add_done; intros ?? [=]].
Qed.

Lemma origin_rtc rows0 w w' : world_inv w -> origin_inv rows0 w -> rtc step w w' -> origin_inv rows0 w'.
Proof.
  intros Hinv Ho Hr. induction Hr as [|w1 w2 w3 Hs _ IH]; [done|].
  apply IH; [by eapply inv_step|by eapply origin_step].
Qed.

(** ** Theorems *)

(** C7: in every interleaving of concurrent tool calls on a well-formed
    table, the table stays well formed, every id returned by
    [add_expense] is the id of a committed row, and two calls are never
    returned the same id. *)
Theorem concurrent_replies_committed t calls w :
  table_wf t -> rtc step (initial_world t calls) w ->
  exists t', db_expenses (w_db w) = Some t' /\ table_wf t' /\
    replies_committed (w_calls w) t' /\ replies_distinct (w_calls w).
Proof.
  intros Hwf Hr.
  destruct (inv_rtc _ _ (inv_initial t calls Hwf) Hr) as (t' & Hdb & Hwf' & _ & _ & Hc & Hd).
  eauto.
Qed.

Lemma concurrent_replies_committed_witness :
  table_wf sample_table /\ rtc step sample_world done_world /\
  exists t', db_expenses (w_db done_world) = Some t' /\ table_wf t' /\
    replies_committed (w_calls done_world) t' /\ replies_distinct (w_calls done_world).
Proof.
  split; [exact sample_table_wf|]. split; [exact sample_run|].
  exact (concurrent_replies_committed sample_table _ done_world sample_table_wf sample_run).
Defined.

(** C8: no phantom and no lost rows: in every interleaving of
    concurrent tool calls on a well-formed table, the committed table is
    the initial rows followed by new rows, each of which was written by a
    call of [add_expense] that replied success with that row's id and
    whose arguments the row stores.  A call that failed (busy, a failed
    INSERT or commit) or has not finished leaves no committed row. *)
Theorem committed_rows_origin t calls w :
  table_wf t -> rtc step (initial_world t calls) w ->
  exists t' zs, db_expenses (w_db w) = Some t' /\ t_rows t' = t_rows t ++ zs /\
    Forall (fun r => exists i a, w_calls w !! i = Some (add_done a (e_id r)) /\
      r = mk_expense (e_id r) (a_date a) (a_amount a) (a_category a) (a_subcategory a) (a_note a))
      zs.
Proof.
  intros Hwf Hr.
  apply (origin_rtc (t_rows t) _ _ (inv_initial t calls Hwf)); [|done].
  exists t, []. rewrite app_nil_r. split_and!; [done|done|constructor].
Qed.

Lemma committed_rows_origin_witness :
  table_wf sample_table /\ rtc step sample_world done_world /\
  exists t' zs, db_expenses (w_db done_world) = Some t' /\ t_rows t' = t_rows sample_table ++ zs /\
    Forall (fun r => exists i a, w_calls done_world !! i = Some (add_done a (e_id r)) /\
      r = mk_expense (e_id r) (a_date a) (a_amount a) (a_category a) (a_subcategory a) (a_note a))
      zs.
Proof.
  split; [exact sample_table_wf|]. split; [exact sample_run|].
  exact (committed_rows_origin sample_table _ done_world sample_table_wf sample_run).
Defined.

(** C22: the write lock excludes: in every reachable state at most one
    call is inside its INSERT transaction, and that call holds the lock. *)
Theorem write_lock_exclusive t calls w i j a b id1 id2 t1 t2 :
  table_wf t -> rtc step (initial_world t calls) w ->
  w_calls w !! i = Some (ReqAdd a, InTxn id1 t1) ->
  w_calls w !! j = Some (ReqAdd b, InTxn id2 t2) ->
  i = j /\ w_lock w = Some i.
Proof.
  intros Hwf Hr Hi Hj.
  destruct (inv_rtc _ _ (inv_initial t calls Hwf) Hr) as (t' & _ & _ & Htx & _).
  destruct (Htx _ _ _ _ Hi) as [Hli _]. destruct (Htx _ _ _ _ Hj) as [Hlj _].
  split; congruence.
Qed.

Lemma write_lock_exclusive_witness :
  rtc step sample_world txn_world /\ 0%nat = 0%nat /\ w_lock txn_world = Some 0%nat.
Proof.
  assert (Hr : rtc step sample_world txn_world) by apply rtc_once, sample_insert_step.
  split; [exact Hr|].
  exact (write_lock_exclusive sample_table _ txn_world 0 0 call_food call_food 2 2
           txn_table txn_table sample_table_wf Hr eq_refl eq_refl).
Defined.

(** C10: a row whose INSERT has not been committed is invisible to the
    other calls: its id is not in the committed table, the transaction's
    table is the committed one with just that row appended, and
    [list_expenses] run meanwhile returns no dict with that id. *)
Theorem uncommitted_invisible t calls w i a id t' :
  table_wf t -> rtc step (initial_world t calls) w ->
  w_calls w !! i = Some (ReqAdd a, InTxn id t') ->
  exists tc, db_expenses (w_db w) = Some tc /\ (id ∉ row_ids (t_rows tc)) /\
    t' = mk_table (t_rows tc ++ [mk_expense id (a_date a) (a_amount a) (a_category a)
                                   (a_subcategory a) (a_note a)]) id /\
    forall s e ds, list_expenses no_faults s e (w_db w) = inr (PList ds) ->
      Forall (fun p => has_id id p = false) ds.
Proof.
  intros Hwf Hr Hi.
  destruct (inv_rtc _ _ (inv_initial t calls Hwf) Hr) as (tc & Hdb & Hwfc & Htx & _).
  destruct (Htx _ _ _ _ Hi) as [_ Hins].
  apply insert_row_result in Hins as (-> & _ & _ & ->); [|done].
  exists tc. split_and!; [done| |done|].
  - intros Hin%(row_ids_le _ _ Hwfc). lia.
  - intros s e ds Hl. eapply Forall_impl; [eapply list_expenses_rows; eauto|].
    intros p (r & Hr' & ->). rewrite has_id_expense_dict. apply Z.eqb_neq.
    pose proof (row_ids_le _ _ Hwfc (row_ids_elem _ _ Hr')). lia.
Qed.

Lemma uncommitted_invisible_witness :
  rtc step sample_world txn_world /\
  exists tc, db_expenses (w_db txn_world) = Some tc /\ (2 ∉ row_ids (t_rows tc)) /\
    txn_table = mk_table (t_rows tc ++ [mk_expense 2 "2024-02-01" amount_42_50 "Food" None None]) 2 /\
    forall s e ds, list_expenses no_faults s e (w_db txn_world) = inr (PList ds) ->
      Forall (fun p => has_id 2 p = false) ds.
Proof.
  assert (Hr : rtc step sample_world txn_world) by apply rtc_once, sample_insert_step.
  split; [exact Hr|].
  exact (uncommitted_invisible sample_table _ txn_world 0 call_food 2 txn_table
           sample_table_wf Hr eq_refl).
Defined.

(** C9: the handler [Tools.add_expense] is implemented by the fine
    steps: whatever it returns and leaves in the database when it runs
    alone, the step relation reaches from the same state, through the
    INSERT (and the commit), with the call replied with that result and
    the lock free, provided no read holds a shared lock meanwhile. *)
Theorem add_expense_steps w i a r d' :
  w_calls w !! i = Some (ReqAdd a, Pending) -> w_lock w = None -> no_readers (w_calls w) ->
  add_expense no_faults (a_date a) (a_amount a) (a_category a) (a_subcategory a) (a_note a)
    (w_db w) = (r, d') ->
  exists w', rtc step w w' /\ w_db w' = d' /\ w_lock w' = None /\
    w_calls w' = <[i := (ReqAdd a, Replied r)]> (w_calls w).
Proof. apply add_expense_run_steps. Qed.

Lemma add_expense_steps_witness :
  add_expense no_faults "2024-02-01" amount_42_50 "Food" None None (w_db sample_world) =
    (inr (add_expense_reply 2), mk_database (Some txn_table)) /\
  exists w', rtc step sample_world w' /\ w_db w' = mk_database (Some txn_table) /\
    w_lock w' = None /\
    w_calls w' = <[0%nat := (ReqAdd call_food, Replied (inr (add_expense_reply 2)))]>
                   (w_calls sample_world).
Proof.
  assert (H : add_expense no_faults "2024-02-01" amount_42_50 "Food" None None (w_db sample_world) =
                (inr (add_expense_reply 2), mk_database (Some txn_table)))
    by (vm_compute; reflexivity).
  assert (Hnr : no_readers (w_calls sample_world)) by (by repeat constructor).
  split; [exact H|].
  exact (add_expense_steps sample_world 0 call_food _ _ eq_refl eq_refl Hnr H).
Defined.

(** C25: liveness of the serial schedule: [add_expense] calls submitted
    together on a well-formed table with room for them and with non-NaN
    amounts can all succeed, one after the other, and they are returned
    the consecutive ids [seq + 1], ..., [seq + n] in that order. *)
Theorem serial_schedule_succeeds t args :
  table_wf t -> t_seq t + Z.of_nat (length args) <= max_rowid ->
  Forall (fun a => real_is_nan (a_amount a) = false) args ->
  exists w, rtc step (initial_world t (ReqAdd <$> args)) w /\ w_lock w = None /\
    w_calls w = zip_with add_done args (zseq (t_seq t + 1) (length args)).
Proof.
  intros Hwf Hroom Hnan.
  destruct (serial_run args [] t (Forall_nil_2 _) Hwf Hroom Hnan) as (t' & _ & Hr).
  exists (mk_world (mk_database (Some t')) None
            (zip_with add_done args (zseq (t_seq t + 1) (length args)))).
  split_and!; [|reflexivity|reflexivity].
  unfold initial_world. rewrite <- list_fmap_compose. exact Hr.
Qed.

Lemma serial_schedule_succeeds_witness :
  table_wf sample_table /\
  t_seq sample_table + Z.of_nat (length [call_food; call_travel]) <= max_rowid /\
  Forall (fun a => real_is_nan (a_amount a) = false) [call_food; call_travel] /\
  exists w, rtc step (initial_world sample_table (ReqAdd <$> [call_food; call_travel])) w /\
    w_lock w = None /\
    w_calls w = [add_done call_food 2; add_done call_travel 3].
Proof.
  assert (Hroom : t_seq sample_table + Z.of_nat (length [call_food; call_travel]) <= max_rowid)
    by (vm_compute; discriminate).
  assert (Hnan : Forall (fun a => real_is_nan (a_amount a) = false) [call_food; call_travel])
    by (repeat constructor).
  split; [exact sample_table_wf|]. split; [exact Hroom|]. split; [exact Hnan|].
  exact (serial_schedule_succeeds sample_table _ sample_table_wf Hroom Hnan).
Defined.

(** C26: termination: every run of concurrent calls is finite; [n]
    calls take at most [2 n] steps in all, whatever the interleaving
    (each call has its statement and, for an insert, its commit). *)
Theorem run_length_bound t calls n w :
  nsteps step n (initial_world t calls) w -> (n <= 2 * length calls)%nat.
Proof. intros Hn. pose proof (nsteps_work _ _ _ Hn). rewrite work_initial in *. lia. Qed.

Lemma run_length_bound_witness :
  nsteps step 2 sample_world done_world /\ (2 <= 2 * 2)%nat.
Proof.
  assert (Hn : nsteps step 2 sample_world done_world)
    by (eapply nsteps_l; [apply sample_insert_step|];
        eapply nsteps_l; [apply sample_commit_step|]; apply nsteps_O).
  split; [exact Hn|].
  exact (run_length_bound sample_table _ 2 done_world Hn).
Defined.

(** C23: a read sees one committed state: while [list_expenses] or
    [summarize] is between [execute] and [fetchall], its snapshot is the
    committed database, and no step of any call changes that database
    until the read ends (the commit waits for the shared lock), so the
    reply is the tool's result on the state before or after each write,
    never on an uncommitted one. *)
Theorem read_snapshot_stable t calls w i req d :
  rtc step (initial_world t calls) w -> w_calls w !! i = Some (req, Reading d) ->
  d = w_db w /\ forall w', step w w' -> w_db w' = w_db w.
Proof.
  intros Hr Hi. split; [exact (snap_rtc _ _ (snap_initial t calls) Hr i req d Hi)|].
  intros w' Hst. exact (step_db_reading _ _ _ _ _ Hi Hst).
Qed.

Lemma read_snapshot_stable_witness :
  rtc step sample_world read_world /\
  w_calls read_world !! 1%nat =
    Some (ReqList "2024-01-01" "2024-12-31", Reading (w_db sample_world)) /\
  w_db sample_world = w_db read_world /\
  forall w', step read_world w' -> w_db w' = w_db read_world.
Proof.
  assert (Hr : rtc step sample_world read_world) by apply rtc_once, sample_read_step.
  assert (Hi : w_calls read_world !! 1%nat =
                 Some (ReqList "2024-01-01" "2024-12-31", Reading (w_db sample_world)))
    by reflexivity.
  split; [exact Hr|]. split; [exact Hi|].
  exact (read_snapshot_stable sample_table _ read_world 1 _ _ Hr Hi).
Defined.

(** C24: the handlers of [Tools] run one after another are a behaviour of
    the concurrent system: for every table and every list of requests,
    running each call to completion in turn is a run of [step] whose
    replies are the ones the handlers give when the requests are handled
    in sequence ([serve]), and which leaves the database they leave, with
    the write lock free. *)
Theorem serial_schedule_serves t reqs :
  exists w, rtc step (initial_world t reqs) w /\
    w_calls w = (serve reqs (mk_database (Some t))).1 /\
    w_db w = (serve reqs (mk_database (Some t))).2 /\ w_lock w = None.
Proof.
  eexists. split_and!; [exact (serial_serve reqs [] _ (Forall_nil_2 _))|reflexivity..].
Qed.

End Concurrency.
